(** * hipsolver: shape, layout and dispatch layer of the ROCm solver bindings

    A shallow embedding of [jaxlib/hipsolver.py].  Every operation of the
    module ([trsm], [potrf], [getrf], [geqrf], [orgqr], [syevd], [gesvd])
    reads the shape of its operands from the XLA builder [c], asks the
    kernel provider ([_hipblas] / [_hipsolver]) for a workspace size and an
    opaque descriptor, and adds one custom-call instruction (followed by
    tuple projections and, for the economy SVD, slices) to the builder.

    Python integers are modelled by [Z], tuples of integers by [list Z],
    byte strings by [string].  The builder and the provider are the two
    effects of the module: they are threaded through a small state-and-error
    monad [M] whose state records, in order, every descriptor query made and
    every instruction added to the builder. *)

From Stdlib Require Import String ZArith List Bool Lia Permutation.
Import ListNotations.

#[local] Set Warnings "-register-all".
Local Open Scope Z_scope.

(** ** Element types (numpy dtypes) *)

Module np.

Inductive dtype : Set :=
| int8 | int32 | float16 | float32 | float64 | complex64 | complex128.

Definition dtype_eq_dec (x y : dtype) : {x = y} + {x <> y}.
Proof. decide equality. Defined.

Definition dtype_eqb (x y : dtype) : bool :=
  if dtype_eq_dec x y then true else false.

(** [np.finfo(dtype).dtype]: the floating-point type that carries the
    machine limits of [dtype].  [np.finfo] raises [ValueError] on a type
    that is not inexact, which is [None] here. *)
Definition finfo (d : dtype) : option dtype :=
  match d with
  | float16 => Some float16
  | float32 => Some float32
  | float64 => Some float64
  | complex64 => Some float32
  | complex128 => Some float64
  | int8 | int32 => None
  end.

End np.

(** ** Shapes with layout ([xla_client.Shape]) *)

Module _Shape.

Inductive Shape : Type :=
| array_shape (element_type : np.dtype) (dimensions : list Z)
              (minor_to_major : list Z)
| tuple_shape (shapes : list Shape).

(** [shape.dimensions()]: empty for a tuple shape. *)
Definition dimensions (s : Shape) : list Z :=
  match s with
  | array_shape _ dims _ => dims
  | tuple_shape _ => []
  end.

(** [shape.element_type()]: a tuple shape has no numpy element type. *)
Definition element_type (s : Shape) : option np.dtype :=
  match s with
  | array_shape dt _ _ => Some dt
  | tuple_shape _ => None
  end.

Definition minor_to_major (s : Shape) : list Z :=
  match s with
  | array_shape _ _ l => l
  | tuple_shape _ => []
  end.

End _Shape.

Definition Shape : Type := _Shape.Shape.

(** ** Python helpers used by the module *)

(** [functools.reduce(operator.mul, xs, 1)] *)
Definition _prod (xs : list Z) : Z := fold_left Z.mul xs 1.

(** [dims[-2:]] *)
Definition last_two (dims : list Z) : list Z :=
  skipn (length dims - 2)%nat dims.

(** [dims[:-2]] *)
Definition all_but_last_two (dims : list Z) : list Z :=
  firstn (length dims - 2)%nat dims.

(** [dims[:-1]] *)
Definition all_but_last (dims : list Z) : list Z :=
  firstn (length dims - 1)%nat dims.

(** [k-1, k-2, ..., 0] as Python integers. *)
Fixpoint countdown (k : nat) : list Z :=
  match k with
  | O => []
  | S k' => Z.of_nat k' :: countdown k'
  end.

(** [tuple(range(start, -1, -1))]: empty when [start] is negative. *)
Definition range_down (start : Z) : list Z := countdown (Z.to_nat (start + 1)).

Definition list_Z_eqb (xs ys : list Z) : bool :=
  if list_eq_dec Z.eq_dec xs ys then true else false.

(** ** Instructions of the XLA builder *)

Inductive CustomCallApiVersion : Set :=
| API_VERSION_ORIGINAL
| API_VERSION_STATUS_RETURNING.

(** Handles into the builder.  [Operand] is an instruction that was already
    in the builder when the operation was called; the three others are the
    instructions this module adds. *)
Inductive XlaOp : Type :=
| Operand (id : nat) (shape : Shape)
| CustomCall (call_target_name : string) (operands : list XlaOp)
             (shape_with_layout : Shape)
             (operand_shapes_with_layout : list Shape)
             (opaque : string) (api_version : CustomCallApiVersion)
| TupleElement (tuple : XlaOp) (index : nat)
| SliceOf (operand : XlaOp) (start_indices limit_indices strides : list Z).

(** Shape inference of a slice: every dimension needs
    [0 <= start <= limit <= size] and a positive stride, and the result
    holds [ceil((limit - start) / stride)] elements along it. *)
Fixpoint slice_dimensions (dims start limit strides : list Z)
  : option (list Z) :=
  match dims, start, limit, strides with
  | [], [], [], [] => Some []
  | d :: ds, s :: ss, l :: ls, t :: ts =>
      if (0 <=? s) && (s <=? l) && (l <=? d) && (0 <? t)
      then option_map (cons ((l - s + t - 1) / t))
                      (slice_dimensions ds ss ls ts)
      else None
  | _, _, _, _ => None
  end.

(** The shape the builder reports for a handle ([c.get_shape]); [None] when
    the builder rejects the instruction. *)
Fixpoint get_shape (op : XlaOp) : option Shape :=
  match op with
  | Operand _ s => Some s
  | CustomCall _ _ s _ _ _ => Some s
  | TupleElement t i =>
      match get_shape t with
      | Some (_Shape.tuple_shape shapes) => nth_error shapes i
      | _ => None
      end
  | SliceOf x start limit strides =>
      match get_shape x with
      | Some (_Shape.array_shape dt dims _) =>
          match slice_dimensions dims start limit strides with
          | Some dims' =>
              Some (_Shape.array_shape dt dims'
                      (countdown (length dims')))
          | None => None
          end
      | _ => None
      end
  end.

(** ** Descriptor queries to the kernel provider

    One constructor per entry point of the native extension modules:
    [build_trsm_batched_descriptor] and [build_getrf_batched_descriptor]
    belong to [_hipblas], the others to [_hipsolver].  The arguments are in
    the order of the Python call. *)
Inductive DescriptorQuery : Type :=
| build_trsm_batched_descriptor (dt : np.dtype) (batch m n : Z)
    (left_side lower trans_a conj_a diag : bool)
| build_getrf_batched_descriptor (dt : np.dtype) (batch m : Z)
| build_potrf_descriptor (dt : np.dtype) (lower : bool) (batch n : Z)
| build_getrf_descriptor (dt : np.dtype) (batch m n : Z)
| build_geqrf_descriptor (dt : np.dtype) (batch m n : Z)
| build_orgqr_descriptor (dt : np.dtype) (batch m n k : Z)
| build_syevd_descriptor (dt : np.dtype) (lower : bool) (batch n : Z)
| build_gesvd_descriptor (dt : np.dtype) (b m n : Z)
    (compute_uv full_matrices : bool).

(** ** Exceptions *)

(** [ValueError] carries its message template and the shapes substituted
    into it by [str.format]. *)
Inductive exn : Type :=
| ValueError (msg : string) (args : list Shape)
| NotImplementedError (msg : string)
| AssertionError
| IndexError
| XlaRuntimeError
| DescriptorBuildError (q : DescriptorQuery).

(** The shapes an exception reports to the caller. *)
Definition reported_shapes (e : exn) : list Shape :=
  match e with
  | ValueError _ args => args
  | _ => []
  end.

(** ** The state-and-error monad *)

Record BuilderState : Type := mkState {
  descriptor_queries : list DescriptorQuery;
  instructions : list XlaOp
}.

Definition empty_state : BuilderState := mkState [] [].

Inductive Result (A : Type) : Type :=
| Ok (a : A)
| Raise (e : exn).

Arguments Ok {A} a.
Arguments Raise {A} e.

Definition M (A : Type) : Type := BuilderState -> Result A * BuilderState.

Definition ret {A} (a : A) : M A := fun st => (Ok a, st).

Definition raise {A} (e : exn) : M A := fun st => (Raise e, st).

Definition bind {A B} (m : M A) (k : A -> M B) : M B :=
  fun st =>
    match m st with
    | (Ok a, st') => k a st'
    | (Raise e, st') => (Raise e, st')
    end.

Notation "x <- m ;; k" := (bind m (fun x => k))
  (at level 61, m at next level, right associativity).
Notation "' pat <- m ;; k" := (bind m (fun x => match x with pat => k end))
  (at level 61, pat pattern, m at next level, right associativity).
Notation "m ;; k" := (bind m (fun _ => k))
  (at level 61, right associativity).

(** [assert cond] *)
Definition assert (cond : bool) : M unit :=
  if cond then ret tt else raise AssertionError.

(** [m, n = xs] *)
Definition unpack2 (xs : list Z) : M (Z * Z) :=
  match xs with
  | [m; n] => ret (m, n)
  | [] => raise (ValueError "not enough values to unpack (expected 2, got 0)" [])
  | [_] => raise (ValueError "not enough values to unpack (expected 2, got 1)" [])
  | _ => raise (ValueError "too many values to unpack (expected 2)" [])
  end.

(** [xs[-1]] *)
Definition last_item (xs : list Z) : M Z :=
  match rev xs with
  | x :: _ => ret x
  | [] => raise IndexError
  end.

(** [c.get_shape(op)] *)
Definition c_get_shape (op : XlaOp) : M Shape :=
  match get_shape op with
  | Some s => ret s
  | None => raise XlaRuntimeError
  end.

(** [shape.element_type()] *)
Definition element_type (s : Shape) : M np.dtype :=
  match _Shape.element_type s with
  | Some dt => ret dt
  | None => raise XlaRuntimeError
  end.

(** Adds an instruction to the builder and returns its handle. *)
Definition emit (op : XlaOp) : M XlaOp :=
  fun st => (Ok op, mkState (descriptor_queries st) (instructions st ++ [op])).

Module _ops.

Definition CustomCallWithLayout (call_target_name : string)
    (operands : list XlaOp) (shape_with_layout : Shape)
    (operand_shapes_with_layout : list Shape) (opaque : string)
    (api_version : CustomCallApiVersion) : M XlaOp :=
  emit (CustomCall call_target_name operands shape_with_layout
          operand_shapes_with_layout opaque api_version).

Definition GetTupleElement (t : XlaOp) (index : nat) : M XlaOp :=
  emit (TupleElement t index).

Definition Slice (x : XlaOp) (start_indices limit_indices strides : list Z)
  : M XlaOp :=
  emit (SliceOf x start_indices limit_indices strides).

End _ops.

(** [_real_type(dtype)]: the real equivalent of [dtype]. *)
Definition _real_type (dtype : np.dtype) : M np.dtype :=
  match np.finfo dtype with
  | Some r => ret r
  | None => raise (ValueError "data type not inexact" [])
  end.

(** ** The operations of [hipsolver.py] *)

Section Operations.

(** The kernel provider: the answer [(lwork, opaque)] of the native
    extension to a descriptor query, or [None] when it raises. *)
Variable provider : DescriptorQuery -> option (Z * string).

(** A call of a descriptor-building entry point: the query is recorded
    whether or not the provider answers. *)
Definition build_descriptor (q : DescriptorQuery) : M (Z * string) :=
  fun st =>
    let st' := mkState (descriptor_queries st ++ [q]) (instructions st) in
    match provider q with
    | Some r => (Ok r, st')
    | None => (Raise (DescriptorBuildError q), st')
    end.

(** Batched triangular solve. *)
Definition trsm (a b : XlaOp) (left_side lower trans_a conj_a diag : bool)
  : M XlaOp :=
  b_shape <- c_get_shape b ;;
  dtype <- element_type b_shape ;;
  let dims := _Shape.dimensions b_shape in
  assert (2 <=? length dims)%nat ;;
  '(m, n) <- unpack2 (last_two dims) ;;
  let batch_dims := all_but_last_two dims in
  let num_bd := Z.of_nat (length batch_dims) in
  let batch := _prod batch_dims in
  let k := if left_side then m else n in
  a_shape <- c_get_shape a ;;
  mismatch <-
    (if negb (list_Z_eqb (batch_dims ++ [k; k]) (_Shape.dimensions a_shape))
     then ret true
     else a_dtype <- element_type a_shape ;;
          ret (negb (np.dtype_eqb a_dtype dtype))) ;;
  if mismatch : bool then
    raise (ValueError "Argument mismatch for trsm, got {} and {}"
             [a_shape; b_shape])
  else if conj_a && negb trans_a then
    raise (NotImplementedError
             "Conjugation without transposition not supported")
  else
    '(lwork, opaque) <- build_descriptor
      (build_trsm_batched_descriptor dtype batch m n left_side lower trans_a
         conj_a diag) ;;
    let layout := [num_bd; num_bd + 1] ++ range_down (num_bd - 1) in
    out <- _ops.CustomCallWithLayout
      "hipblas_trsm_batched"
      [a; b]
      (_Shape.tuple_shape
         [_Shape.array_shape dtype (_Shape.dimensions b_shape) layout;
          _Shape.array_shape np.int8 [lwork] [0];
          _Shape.array_shape np.int8 [lwork] [0]])
      [_Shape.array_shape dtype (_Shape.dimensions a_shape) layout;
       _Shape.array_shape dtype (_Shape.dimensions b_shape) layout]
      opaque
      API_VERSION_STATUS_RETURNING ;;
    _ops.GetTupleElement out 0.

(** Cholesky decomposition. *)
Definition potrf (a : XlaOp) (lower : bool) : M (XlaOp * XlaOp) :=
  a_shape <- c_get_shape a ;;
  dtype <- element_type a_shape ;;
  let dims := _Shape.dimensions a_shape in
  '(m, n) <- unpack2 (last_two dims) ;;
  assert (m =? n) ;;
  let batch_dims := all_but_last_two dims in
  let num_bd := Z.of_nat (length batch_dims) in
  let batch := _prod batch_dims in
  '(lwork, opaque) <- build_descriptor
    (build_potrf_descriptor dtype lower batch n) ;;
  let kernel := "hipsolver_potrf"%string in
  out <- _ops.CustomCallWithLayout
    kernel
    [a]
    (_Shape.tuple_shape
       [_Shape.array_shape dtype (batch_dims ++ [n; n])
          ([num_bd; num_bd + 1] ++ range_down (num_bd - 1));
        _Shape.array_shape np.int32 batch_dims (range_down (num_bd - 1));
        _Shape.array_shape np.int8 [lwork] [0]])
    [_Shape.array_shape dtype (batch_dims ++ [n; n])
       ([num_bd; num_bd + 1] ++ range_down (num_bd - 1))]
    opaque
    API_VERSION_STATUS_RETURNING ;;
  r0 <- _ops.GetTupleElement out 0 ;;
  r1 <- _ops.GetTupleElement out 1 ;;
  ret (r0, r1).

(** LU decomposition. *)
Definition getrf (a : XlaOp) : M (XlaOp * XlaOp * XlaOp) :=
  a_shape <- c_get_shape a ;;
  dtype <- element_type a_shape ;;
  let dims := _Shape.dimensions a_shape in
  assert (2 <=? length dims)%nat ;;
  '(m, n) <- unpack2 (last_two dims) ;;
  let batch_dims := all_but_last_two dims in
  let num_bd := Z.of_nat (length batch_dims) in
  let batch := _prod batch_dims in
  '(opaque, workspace, kernel) <-
    (if (1 <? batch) && (m =? n) && (m / batch <=? 128) then
       '(lwork, opaque) <- build_descriptor
         (build_getrf_batched_descriptor dtype batch m) ;;
       let workspace := _Shape.array_shape np.int8 [lwork] [0] in
       let kernel := "hipblas_getrf_batched"%string in
       ret (opaque, workspace, kernel)
     else
       '(lwork, opaque) <- build_descriptor
         (build_getrf_descriptor dtype batch m n) ;;
       let workspace := _Shape.array_shape dtype [lwork] [0] in
       let kernel := "hipsolver_getrf"%string in
       ret (opaque, workspace, kernel)) ;;
  out <- _ops.CustomCallWithLayout
    kernel
    [a]
    (_Shape.tuple_shape
       [_Shape.array_shape dtype (batch_dims ++ [m; n])
          ([num_bd; num_bd + 1] ++ range_down (num_bd - 1));
        _Shape.array_shape np.int32 (batch_dims ++ [Z.min m n])
          (range_down num_bd);
        _Shape.array_shape np.int32 batch_dims (range_down (num_bd - 1));
        workspace])
    [_Shape.array_shape dtype (batch_dims ++ [m; n])
       ([num_bd; num_bd + 1] ++ range_down (num_bd - 1))]
    opaque
    API_VERSION_STATUS_RETURNING ;;
  r0 <- _ops.GetTupleElement out 0 ;;
  r1 <- _ops.GetTupleElement out 1 ;;
  r2 <- _ops.GetTupleElement out 2 ;;
  ret (r0, r1, r2).

(** QR decomposition. *)
Definition geqrf (a : XlaOp) : M (XlaOp * XlaOp * XlaOp) :=
  a_shape <- c_get_shape a ;;
  dtype <- element_type a_shape ;;
  let dims := _Shape.dimensions a_shape in
  assert (2 <=? length dims)%nat ;;
  '(m, n) <- unpack2 (last_two dims) ;;
  let batch_dims := all_but_last_two dims in
  let num_bd := Z.of_nat (length batch_dims) in
  let batch := _prod batch_dims in
  '(lwork, opaque) <- build_descriptor
    (build_geqrf_descriptor dtype batch m n) ;;
  let workspace := _Shape.array_shape dtype [lwork] [0] in
  let kernel := "hipsolver_geqrf"%string in
  out <- _ops.CustomCallWithLayout
    kernel
    [a]
    (_Shape.tuple_shape
       [_Shape.array_shape dtype (batch_dims ++ [m; n])
          ([num_bd; num_bd + 1] ++ range_down (num_bd - 1));
        _Shape.array_shape dtype (batch_dims ++ [Z.min m n])
          (range_down num_bd);
        _Shape.array_shape np.int32 batch_dims (range_down (num_bd - 1));
        workspace])
    [_Shape.array_shape dtype (batch_dims ++ [m; n])
       ([num_bd; num_bd + 1] ++ range_down (num_bd - 1))]
    opaque
    API_VERSION_STATUS_RETURNING ;;
  r0 <- _ops.GetTupleElement out 0 ;;
  r1 <- _ops.GetTupleElement out 1 ;;
  r2 <- _ops.GetTupleElement out 2 ;;
  ret (r0, r1, r2).

(** Product of elementary Householder reflections. *)
Definition orgqr (a tau : XlaOp) : M (XlaOp * XlaOp) :=
  a_shape <- c_get_shape a ;;
  dtype <- element_type a_shape ;;
  let dims := _Shape.dimensions a_shape in
  assert (2 <=? length dims)%nat ;;
  '(m, n) <- unpack2 (last_two dims) ;;
  let batch_dims := all_but_last_two dims in
  let num_bd := Z.of_nat (length batch_dims) in
  let batch := _prod batch_dims in
  tau_shape <- c_get_shape tau ;;
  let tau_dims := _Shape.dimensions tau_shape in
  assert (list_Z_eqb (all_but_last tau_dims) (all_but_last_two dims)) ;;
  k <- last_item tau_dims ;;
  '(lwork, opaque) <- build_descriptor
    (build_orgqr_descriptor dtype batch m n k) ;;
  let workspace := _Shape.array_shape dtype [lwork] [0] in
  let kernel := "hipsolver_orgqr"%string in
  out <- _ops.CustomCallWithLayout
    kernel
    [a; tau]
    (_Shape.tuple_shape
       [_Shape.array_shape dtype (batch_dims ++ [m; n])
          ([num_bd; num_bd + 1] ++ range_down (num_bd - 1));
        _Shape.array_shape np.int32 batch_dims (range_down (num_bd - 1));
        workspace])
    [_Shape.array_shape dtype (batch_dims ++ [m; n])
       ([num_bd; num_bd + 1] ++ range_down (num_bd - 1));
     _Shape.array_shape dtype (batch_dims ++ [k]) (range_down num_bd)]
    opaque
    API_VERSION_STATUS_RETURNING ;;
  r0 <- _ops.GetTupleElement out 0 ;;
  r1 <- _ops.GetTupleElement out 1 ;;
  ret (r0, r1).

(** Symmetric (Hermitian) eigendecomposition. *)
Definition syevd (a : XlaOp) (lower : bool) : M (XlaOp * XlaOp * XlaOp) :=
  a_shape <- c_get_shape a ;;
  dtype <- element_type a_shape ;;
  let dims := _Shape.dimensions a_shape in
  assert (2 <=? length dims)%nat ;;
  '(m, n) <- unpack2 (last_two dims) ;;
  assert (m =? n) ;;
  let batch_dims := all_but_last_two dims in
  let num_bd := Z.of_nat (length batch_dims) in
  let batch := _prod batch_dims in
  let layout := [num_bd; num_bd + 1] ++ range_down (num_bd - 1) in
  let kernel := "hipsolver_syevd"%string in
  '(lwork, opaque) <- build_descriptor
    (build_syevd_descriptor dtype lower batch n) ;;
  eigvals_type <- _real_type dtype ;;
  out <- _ops.CustomCallWithLayout
    kernel
    [a]
    (_Shape.tuple_shape
       [_Shape.array_shape dtype dims layout;
        _Shape.array_shape eigvals_type (batch_dims ++ [n])
          (range_down num_bd);
        _Shape.array_shape np.int32 batch_dims (range_down (num_bd - 1));
        _Shape.array_shape dtype [lwork] [0]])
    [_Shape.array_shape dtype dims layout]
    opaque
    API_VERSION_STATUS_RETURNING ;;
  r0 <- _ops.GetTupleElement out 0 ;;
  r1 <- _ops.GetTupleElement out 1 ;;
  r2 <- _ops.GetTupleElement out 2 ;;
  ret (r0, r1, r2).

(** Singular value decomposition.  The result is [(s, u, vt, info)]. *)
Definition gesvd (a : XlaOp) (full_matrices compute_uv : bool)
  : M (XlaOp * XlaOp * XlaOp * XlaOp) :=
  a_shape <- c_get_shape a ;;
  let dims := _Shape.dimensions a_shape in
  dtype <- element_type a_shape ;;
  assert (2 <=? length dims)%nat ;;
  '(m, n) <- unpack2 (last_two dims) ;;
  let batch_dims := all_but_last_two dims in
  let num_bd := Z.of_nat (length batch_dims) in
  let b := _prod batch_dims in
  singular_vals_dtype <- _real_type dtype ;;
  '(s, u, vt, info) <-
    (if m <? n then
       '(lwork, opaque) <- build_descriptor
         (build_gesvd_descriptor dtype b n m compute_uv full_matrices) ;;
       let scalar_layout := range_down (num_bd - 1) in
       let vector_layout := [num_bd] ++ scalar_layout in
       let matrix_layout := [num_bd + 1; num_bd] ++ scalar_layout in
       out <- _ops.CustomCallWithLayout
         "hipsolver_gesvd"
         [a]
         (_Shape.tuple_shape
            [_Shape.array_shape dtype (batch_dims ++ [m; n]) matrix_layout;
             _Shape.array_shape singular_vals_dtype
               (batch_dims ++ [Z.min m n]) vector_layout;
             _Shape.array_shape dtype (batch_dims ++ [n; n]) matrix_layout;
             _Shape.array_shape dtype (batch_dims ++ [m; m]) matrix_layout;
             _Shape.array_shape np.int32 batch_dims scalar_layout;
             _Shape.array_shape dtype [lwork] [0]])
         [_Shape.array_shape dtype (batch_dims ++ [m; n]) matrix_layout]
         opaque
         API_VERSION_STATUS_RETURNING ;;
       s <- _ops.GetTupleElement out 1 ;;
       vt <- _ops.GetTupleElement out 2 ;;
       u <- _ops.GetTupleElement out 3 ;;
       info <- _ops.GetTupleElement out 4 ;;
       ret (s, u, vt, info)
     else
       '(lwork, opaque) <- build_descriptor
         (build_gesvd_descriptor dtype b m n compute_uv full_matrices) ;;
       let scalar_layout := range_down (num_bd - 1) in
       let vector_layout := [num_bd] ++ scalar_layout in
       let matrix_layout := [num_bd; num_bd + 1] ++ scalar_layout in
       out <- _ops.CustomCallWithLayout
         "hipsolver_gesvd"
         [a]
         (_Shape.tuple_shape
            [_Shape.array_shape dtype (batch_dims ++ [m; n]) matrix_layout;
             _Shape.array_shape singular_vals_dtype
               (batch_dims ++ [Z.min m n]) vector_layout;
             _Shape.array_shape dtype (batch_dims ++ [m; m]) matrix_layout;
             _Shape.array_shape dtype (batch_dims ++ [n; n]) matrix_layout;
             _Shape.array_shape np.int32 batch_dims scalar_layout;
             _Shape.array_shape dtype [lwork] [0]])
         [_Shape.array_shape dtype (batch_dims ++ [m; n]) matrix_layout]
         opaque
         API_VERSION_STATUS_RETURNING ;;
       s <- _ops.GetTupleElement out 1 ;;
       u <- _ops.GetTupleElement out 2 ;;
       vt <- _ops.GetTupleElement out 3 ;;
       info <- _ops.GetTupleElement out 4 ;;
       ret (s, u, vt, info)) ;;
  if negb full_matrices then
    u' <- _ops.Slice u (repeat 0 (length dims))
            (batch_dims ++ [m; Z.min m n]) (repeat 1 (length dims)) ;;
    vt' <- _ops.Slice vt (repeat 0 (length dims))
             (batch_dims ++ [Z.min m n; n]) (repeat 1 (length dims)) ;;
    ret (s, u', vt', info)
  else
    ret (s, u, vt, info).

(** The caller's interface: one entry per operation function, with its
    operand handles and flags. *)
Inductive Operation : Type :=
| call_trsm (a b : XlaOp) (left_side lower trans_a conj_a diag : bool)
| call_potrf (a : XlaOp) (lower : bool)
| call_getrf (a : XlaOp)
| call_geqrf (a : XlaOp)
| call_orgqr (a tau : XlaOp)
| call_syevd (a : XlaOp) (lower : bool)
| call_gesvd (a : XlaOp) (full_matrices compute_uv : bool).

(** Runs an operation and returns the handles it gives back, in order. *)
Definition run (o : Operation) : M (list XlaOp) :=
  match o with
  | call_trsm a b left_side lower trans_a conj_a diag =>
      x <- trsm a b left_side lower trans_a conj_a diag ;; ret [x]
  | call_potrf a lower =>
      '(x, info) <- potrf a lower ;; ret [x; info]
  | call_getrf a =>
      '(lu, pivots, info) <- getrf a ;; ret [lu; pivots; info]
  | call_geqrf a =>
      '(x, taus, info) <- geqrf a ;; ret [x; taus; info]
  | call_orgqr a tau =>
      '(x, info) <- orgqr a tau ;; ret [x; info]
  | call_syevd a lower =>
      '(v, w, info) <- syevd a lower ;; ret [v; w; info]
  | call_gesvd a full_matrices compute_uv =>
      '(s, u, vt, info) <- gesvd a full_matrices compute_uv ;;
      ret [s; u; vt; info]
  end.

End Operations.

(** ** Observations on call requests *)

(** The kernel symbol a handle ultimately reads from. *)
Fixpoint kernel_name (op : XlaOp) : option string :=
  match op with
  | Operand _ _ => None
  | CustomCall name _ _ _ _ _ => Some name
  | TupleElement t _ => kernel_name t
  | SliceOf x _ _ _ => kernel_name x
  end.

(** The raw kernel output behind a returned handle: the call and the
    position in its result tuple. *)
Fixpoint kernel_output (op : XlaOp) : option (XlaOp * nat) :=
  match op with
  | TupleElement t i => Some (t, i)
  | SliceOf x _ _ _ => kernel_output x
  | _ => None
  end.

(** The position, in the kernel's result tuple, a returned handle reads. *)
Definition output_position (op : XlaOp) : option nat :=
  option_map snd (kernel_output op).

(** The operand and result buffers a custom call declares. *)
Definition declared_buffers (op : XlaOp) : list Shape :=
  match op with
  | CustomCall _ _ (_Shape.tuple_shape outs) ins _ _ => ins ++ outs
  | _ => []
  end.

(** The instructions added to the builder between two states. *)
Definition added (st st' : BuilderState) : list XlaOp :=
  skipn (length (instructions st)) (instructions st').

Definition rank (s : Shape) : nat := length (_Shape.dimensions s).

(** The operand whose shape fixes the batch prefix of a call. *)
Definition primary_operand (o : Operation) : XlaOp :=
  match o with
  | call_trsm _ b _ _ _ _ _ => b
  | call_potrf a _ | call_getrf a | call_geqrf a | call_orgqr a _
  | call_syevd a _ | call_gesvd a _ _ => a
  end.

(** Number of batch dimensions of a call. *)
Definition batch_rank (o : Operation) : nat :=
  match get_shape (primary_operand o) with
  | Some s => length (all_but_last_two (_Shape.dimensions s))
  | None => 0
  end.

(** Whether the call is a [gesvd] on an operand with fewer rows than
    columns. *)
Definition gesvd_on_wide_operand (o : Operation) : bool :=
  match o with
  | call_gesvd a _ _ =>
      match get_shape a with
      | Some s =>
          match last_two (_Shape.dimensions s) with
          | [m; n] => m <? n
          | _ => false
          end
      | None => false
      end
  | _ => false
  end.

(** ** The layouts and types the specification names *)

(** [(num_bd, num_bd+1, num_bd-1, ..., 0)] *)
Definition canonical_matrix_layout (num_bd : nat) : list Z :=
  map Z.of_nat ([num_bd; num_bd + 1] ++ rev (seq 0 num_bd))%nat.

(** [(num_bd, num_bd-1, ..., 0)] *)
Definition canonical_vector_layout (num_bd : nat) : list Z :=
  map Z.of_nat (rev (seq 0 (num_bd + 1)))%nat.

(** [(num_bd+1, num_bd, num_bd-1, ..., 0)]: the matrix layout with the two
    matrix dimensions exchanged. *)
Definition transposed_matrix_layout (num_bd : nat) : list Z :=
  map Z.of_nat ([num_bd + 1; num_bd] ++ rev (seq 0 num_bd))%nat.


(** A provider that answers every query, used to run the operations on
    concrete operands. *)
Definition sample_provider (q : DescriptorQuery) : option (Z * string) :=
  Some (64, "descriptor"%string).

Definition f32 (id : nat) (dims : list Z) : XlaOp :=
  Operand id (_Shape.array_shape np.float32 dims (countdown (length dims))).


(** The call request [potrf] builds, with [sample_provider], for a
    float32 operand of shape [(10, 4, 4)]. *)
Definition sample_potrf_request : XlaOp :=
  CustomCall "hipsolver_potrf" [f32 0 [10; 4; 4]]
    (_Shape.tuple_shape
       [_Shape.array_shape np.float32 [10; 4; 4] [1; 2; 0];
        _Shape.array_shape np.int32 [10] [0];
        _Shape.array_shape np.int8 [64] [0]])
    [_Shape.array_shape np.float32 [10; 4; 4] [1; 2; 0]]
    "descriptor" API_VERSION_STATUS_RETURNING.

(** Whether an instruction is a custom call. *)
Definition is_custom_call (op : XlaOp) : bool :=
  match op with
  | CustomCall _ _ _ _ _ _ => true
  | _ => false
  end.

(** The kernel symbols an operation may request. *)
Definition kernels_of (o : Operation) : list string :=
  match o with
  | call_trsm _ _ _ _ _ _ _ => ["hipblas_trsm_batched"%string]
  | call_potrf _ _ => ["hipsolver_potrf"%string]
  | call_getrf _ => ["hipblas_getrf_batched"%string; "hipsolver_getrf"%string]
  | call_geqrf _ => ["hipsolver_geqrf"%string]
  | call_orgqr _ _ => ["hipsolver_orgqr"%string]
  | call_syevd _ _ => ["hipsolver_syevd"%string]
  | call_gesvd _ _ _ => ["hipsolver_gesvd"%string]
  end.

(** The dimension indices [0, 1, ..., r-1] of a buffer of rank [r]. *)
Definition dimension_indices (r : nat) : list Z := map Z.of_nat (seq 0 r).

(** The shape a handle has once it is in the builder, as a plain operand. *)
Definition operand_of (id : nat) (dt : np.dtype) (dims : list Z) : XlaOp :=
  Operand id (_Shape.array_shape dt dims (countdown (length dims))).

(** A provider that rejects every query. *)
Definition failing_provider (q : DescriptorQuery) : option (Z * string) :=
  None.

(** ** Python slicing and ranges *)

Lemma length_app2 (bd : list Z) (m n : Z) :
  length (bd ++ [m; n]) = S (S (length bd)).
Proof. rewrite length_app. simpl. lia. Qed.

Lemma last_two_app (bd : list Z) (m n : Z) :
  last_two (bd ++ [m; n]) = [m; n].
Proof.
  unfold last_two. rewrite length_app2. simpl. rewrite Nat.sub_0_r.
  rewrite skipn_app, Nat.sub_diag, skipn_all. reflexivity.
Qed.

Lemma all_but_last_two_app (bd : list Z) (m n : Z) :
  all_but_last_two (bd ++ [m; n]) = bd.
Proof.
  unfold all_but_last_two. rewrite length_app2. simpl. rewrite Nat.sub_0_r.
  rewrite firstn_app, Nat.sub_diag, firstn_all. simpl. apply app_nil_r.
Qed.

Lemma split_last_two (dims : list Z) :
  dims = all_but_last_two dims ++ last_two dims.
Proof. unfold all_but_last_two, last_two. symmetry. apply firstn_skipn. Qed.

Lemma length_all_but_last_two (dims : list Z) :
  length (all_but_last_two dims) = (length dims - 2)%nat.
Proof. unfold all_but_last_two. rewrite length_firstn. lia. Qed.

Lemma list_Z_eqb_true (xs ys : list Z) : list_Z_eqb xs ys = true <-> xs = ys.
Proof.
  unfold list_Z_eqb. destruct (list_eq_dec Z.eq_dec xs ys); split;
    intros; congruence.
Qed.

Lemma list_Z_eqb_false (xs ys : list Z) :
  list_Z_eqb xs ys = false <-> xs <> ys.
Proof.
  unfold list_Z_eqb. destruct (list_eq_dec Z.eq_dec xs ys); split;
    intros; congruence.
Qed.

Lemma dtype_eqb_true (x y : np.dtype) : np.dtype_eqb x y = true <-> x = y.
Proof.
  unfold np.dtype_eqb. destruct (np.dtype_eq_dec x y); split;
    intros; congruence.
Qed.

Lemma countdown_rev_seq (k : nat) :
  countdown k = map Z.of_nat (rev (seq 0 k)).
Proof.
  induction k as [|k IH].
  - reflexivity.
  - rewrite seq_S, rev_app_distr. simpl. now rewrite IH.
Qed.

Lemma range_down_pred (k : nat) : range_down (Z.of_nat k - 1) = countdown k.
Proof.
  unfold range_down. replace (Z.of_nat k - 1 + 1) with (Z.of_nat k) by lia.
  now rewrite Nat2Z.id.
Qed.

Lemma range_down_nat (k : nat) :
  range_down (Z.of_nat k) = Z.of_nat k :: countdown k.
Proof.
  unfold range_down.
  replace (Z.of_nat k + 1) with (Z.of_nat (S k)) by lia.
  now rewrite Nat2Z.id.
Qed.

Lemma matrix_layout_canonical (k : nat) :
  [Z.of_nat k; Z.of_nat k + 1] ++ range_down (Z.of_nat k - 1)
  = canonical_matrix_layout k.
Proof.
  unfold canonical_matrix_layout. rewrite range_down_pred, countdown_rev_seq.
  simpl. do 2 f_equal. lia.
Qed.

Lemma matrix_layout_transposed (k : nat) :
  [Z.of_nat k + 1; Z.of_nat k] ++ range_down (Z.of_nat k - 1)
  = transposed_matrix_layout k.
Proof.
  unfold transposed_matrix_layout. rewrite range_down_pred, countdown_rev_seq.
  simpl. f_equal. lia.
Qed.

Lemma vector_layout_canonical (k : nat) :
  range_down (Z.of_nat k) = canonical_vector_layout k.
Proof.
  unfold canonical_vector_layout. rewrite range_down_nat, countdown_rev_seq.
  rewrite Nat.add_1_r, seq_S, rev_app_distr. reflexivity.
Qed.

Lemma vector_layout_canonical_cons (k : nat) :
  [Z.of_nat k] ++ range_down (Z.of_nat k - 1) = canonical_vector_layout k.
Proof.
  rewrite <- vector_layout_canonical, range_down_pred, range_down_nat.
  reflexivity.
Qed.

Lemma added_app (qs : list DescriptorQuery) (st : BuilderState)
    (new : list XlaOp) :
  added st (mkState qs (instructions st ++ new)) = new.
Proof.
  unfold added. simpl.
  rewrite skipn_app, Nat.sub_diag, skipn_all. reflexivity.
Qed.

Lemma added_none (qs : list DescriptorQuery) (st : BuilderState) :
  added st (mkState qs (instructions st)) = [].
Proof. unfold added. simpl. apply skipn_all. Qed.

Lemma added_same (st : BuilderState) : added st st = [].
Proof. unfold added. apply skipn_all. Qed.

(** ** Shape of a full-range, unit-stride slice *)

Lemma slice_dimensions_trailing (bd : list Z) (x y x' y' : Z) :
  Forall (fun d => 0 <= d) bd ->
  0 <= x' <= x -> 0 <= y' <= y ->
  slice_dimensions (bd ++ [x; y]) (repeat 0 (S (S (length bd))))
    (bd ++ [x'; y']) (repeat 1 (S (S (length bd))))
  = Some (bd ++ [x'; y']).
Proof.
  intros Hbd Hx Hy. induction Hbd as [|d bd Hd Hbd IH].
  - cbn [app length repeat slice_dimensions].
    replace (0 <=? 0) with true by reflexivity.
    replace (0 <? 1) with true by reflexivity.
    replace (0 <=? x') with true by (symmetry; apply Z.leb_le; lia).
    replace (x' <=? x) with true by (symmetry; apply Z.leb_le; lia).
    replace (0 <=? y') with true by (symmetry; apply Z.leb_le; lia).
    replace (y' <=? y) with true by (symmetry; apply Z.leb_le; lia).
    cbn [andb option_map].
    replace (x' - 0 + 1 - 1) with x' by lia.
    replace (y' - 0 + 1 - 1) with y' by lia.
    now rewrite !Z.div_1_r.
  - cbn [app length repeat slice_dimensions].
    cbn [app length repeat] in IH. rewrite IH.
    replace (0 <=? 0) with true by reflexivity.
    replace (0 <? 1) with true by reflexivity.
    replace (0 <=? d) with true by (symmetry; apply Z.leb_le; lia).
    replace (d <=? d) with true by (symmetry; apply Z.leb_le; lia).
    cbn [andb option_map].
    replace (d - 0 + 1 - 1) with d by lia.
    now rewrite Z.div_1_r.
Qed.

(** ** Running an operation on an operand of known shape *)

(** Resolves the shape prologue shared by the operations once the shape of
    the operand is known to be [bd ++ [m; n]]. *)
Ltac resolve_shape H :=
  unfold bind, c_get_shape; rewrite H;
  cbn [ret element_type _Shape.element_type _Shape.dimensions];
  rewrite ?length_app2, ?last_two_app, ?all_but_last_two_app;
  cbn [Nat.leb assert unpack2 ret].

(** Answers a descriptor query with a provider known to accept it. *)
Ltac answer Hprov :=
  unfold build_descriptor;
  match goal with
  | |- context [match ?p ?q with Some _ => _ | None => _ end] =>
      let E := fresh "E" in
      let lwork := fresh "lwork" in
      let opaque := fresh "opaque" in
      destruct (p q) as [[lwork opaque]|] eqn:E;
      [ | exfalso; exact (Hprov q E) ]
  end.

(** ** Running an operation on arbitrary operands *)

(** Case analysis on the innermost scrutinee of the goal. *)
Ltac branch :=
  match goal with
  | |- context [match ?x with _ => _ end] =>
      lazymatch x with
      | context [match _ with _ => _ end] => fail
      | _ => destruct x eqn:?
      end
  end.

Ltac unfold_ops :=
  unfold run, trsm, potrf, getrf, geqrf, orgqr, syevd, gesvd, bind,
    c_get_shape, element_type, _real_type, assert, unpack2, last_item,
    build_descriptor, _ops.CustomCallWithLayout, _ops.GetTupleElement,
    _ops.Slice, emit, batch_rank, gesvd_on_wide_operand, primary_operand.

(** Follows every path of an unfolded operation to its final state. *)
Ltac run_branches :=
  repeat (branch;
          cbn beta iota delta
            [ret raise fst snd descriptor_queries instructions]).

Ltac in_cases H :=
  cbn [In] in H; repeat (destruct H as [H | H]; [subst |]);
  try contradiction.

(** Turns the checks passed on the way into facts about the shapes. *)
Ltac use_checks :=
  repeat match goal with
    | H : negb (list_Z_eqb _ _) = false |- _ =>
        apply negb_false_iff, list_Z_eqb_true in H; rewrite <- H in *
    | H : (_ <=? _)%nat = true |- _ => apply Nat.leb_le in H
    end.

(** Settles the layout of one declared buffer: either it is the layout its
    rank calls for, or the rank hypothesis is absurd. *)
Ltac layout_goal :=
  unfold rank; cbn [_Shape.dimensions _Shape.minor_to_major];
  rewrite ?length_app; cbn [length];
  split; [intros Hr; split; intros Hw; try discriminate Hw | intros Hr];
  first
    [ exact (matrix_layout_canonical _)
    | exact (matrix_layout_transposed _)
    | exact (vector_layout_canonical _)
    | exact (vector_layout_canonical_cons _)
    | exfalso; rewrite ?length_all_but_last_two in *; lia
    | match goal with
      | |- _ = canonical_vector_layout ?k =>
          replace k with 0%nat by lia; reflexivity
      end ].

Ltac check_layouts :=
  unfold_ops; run_branches;
  rewrite <- ?app_assoc; cbn [app];
  rewrite ?added_same, ?added_none, ?added_app;
  (let Hin := fresh "Hin" in
   intros Hin; in_cases Hin;
   let Hs := fresh "Hs" in
   intros Hs; cbn [declared_buffers app] in Hs; in_cases Hs;
   use_checks; layout_goal).

(** Simplification that keeps layouts and integer arithmetic folded. *)
Ltac run_call :=
  cbn -[canonical_matrix_layout canonical_vector_layout range_down countdown
        Z.min Z.of_nat Z.add Z.sub Z.mul Z.div Z.ltb Z.leb Z.eqb _prod].

Section Claims.

Variable provider : DescriptorQuery -> option (Z * string).


(** C2. The kernel [getrf] requests is a function of [(batch, m, n)] alone:
    it is [hipblas_getrf_batched] exactly when [batch > 1], [m = n] and
    [m // batch <= 128], and [hipsolver_getrf] exactly when that fails.  The
    provider is only asked to answer the one query of the call; the three
    handles returned are outputs of the call to the chosen kernel on [a],
    built with the descriptor the provider returned. *)
Theorem getrf_kernel_choice
    (a : XlaOp) (dt : np.dtype) (bd : list Z) (m n : Z) (lay : list Z)
    (lwork : Z) (opaque : string) (st : BuilderState) :
  get_shape a = Some (_Shape.array_shape dt (bd ++ [m; n]) lay) ->
  provider
    (if (1 <? _prod bd) && (m =? n) && (m / _prod bd <=? 128)
     then build_getrf_batched_descriptor dt (_prod bd) m
     else build_getrf_descriptor dt (_prod bd) m n)
  = Some (lwork, opaque) ->
  exists kernel outs ins lu pivots info st',
    let out := CustomCall kernel [a] (_Shape.tuple_shape outs) ins opaque
                 API_VERSION_STATUS_RETURNING in
    getrf provider a st = (Ok (lu, pivots, info), st') /\
    lu = TupleElement out 0 /\
    pivots = TupleElement out 1 /\
    info = TupleElement out 2 /\
    instructions st' = instructions st ++ [out; lu; pivots; info] /\
    descriptor_queries st'
    = descriptor_queries st
      ++ [if (1 <? _prod bd) && (m =? n) && (m / _prod bd <=? 128)
          then build_getrf_batched_descriptor dt (_prod bd) m
          else build_getrf_descriptor dt (_prod bd) m n] /\
    (kernel_name lu = Some "hipblas_getrf_batched"%string
       <-> _prod bd > 1 /\ m = n /\ m / _prod bd <= 128) /\
    (kernel_name lu = Some "hipsolver_getrf"%string
       <-> ~ (_prod bd > 1 /\ m = n /\ m / _prod bd <= 128)).
Proof.
  intros Ha Hp.
  unfold getrf. resolve_shape Ha.
  destruct ((1 <? _prod bd) && (m =? n) && (m / _prod bd <=? 128)) eqn:Hsel.
  - apply andb_true_iff in Hsel as [Hsel H128].
    apply andb_true_iff in Hsel as [Hbatch Hsq].
    apply Z.ltb_lt in Hbatch. apply Z.eqb_eq in Hsq. apply Z.leb_le in H128.
    unfold bind, build_descriptor. rewrite Hp. run_call.
    eexists _, _, _, _, _, _, _. cbn zeta.
    split; [reflexivity|]. split; [reflexivity|]. split; [reflexivity|].
    split; [reflexivity|].
    split; [rewrite <- !app_assoc; reflexivity|].
    split; [reflexivity|]. cbn [kernel_name]. split.
    + split; [intros _; lia | reflexivity].
    + split; [discriminate | intros Hn; exfalso; apply Hn; lia].
  - assert (Hno : ~ (_prod bd > 1 /\ m = n /\ m / _prod bd <= 128)).
    { intros (Hbatch & Hsq & H128).
      apply andb_false_iff in Hsel as [Hsel | Hsel].
      - apply andb_false_iff in Hsel as [Hsel | Hsel].
        + apply Z.ltb_ge in Hsel. lia.
        + apply Z.eqb_neq in Hsel. lia.
      - apply Z.leb_gt in Hsel. lia. }
    unfold bind, build_descriptor. rewrite Hp. run_call.
    eexists _, _, _, _, _, _, _. cbn zeta.
    split; [reflexivity|]. split; [reflexivity|]. split; [reflexivity|].
    split; [reflexivity|].
    split; [rewrite <- !app_assoc; reflexivity|].
    split; [reflexivity|]. cbn [kernel_name]. split.
    + split; [discriminate | intros Hy; exfalso; exact (Hno Hy)].
    + split; [intros _; exact Hno | reflexivity].
Qed.

(** C5. The descriptor query carries the resolved dimensions: [gesvd] on an
    operand with [m < n] queries the provider with [(n, m)], and [getrf] on
    its batched path queries it with the single side length [m]. *)
Theorem descriptor_query_uses_resolved_dimensions
    (a_svd : XlaOp) (dt : np.dtype) (bd : list Z) (m n : Z) (lay : list Z)
    (full_matrices compute_uv : bool)
    (a_lu : XlaOp) (dt' : np.dtype) (bd' : list Z) (k : Z) (lay' : list Z)
    (st : BuilderState) :
  get_shape a_svd = Some (_Shape.array_shape dt (bd ++ [m; n]) lay) ->
  np.finfo dt <> None ->
  m < n ->
  get_shape a_lu = Some (_Shape.array_shape dt' (bd' ++ [k; k]) lay') ->
  _prod bd' > 1 ->
  k / _prod bd' <= 128 ->
  descriptor_queries (snd (gesvd provider a_svd full_matrices compute_uv st))
    = descriptor_queries st
      ++ [build_gesvd_descriptor dt (_prod bd) n m compute_uv full_matrices]
  /\
  descriptor_queries (snd (getrf provider a_lu st))
    = descriptor_queries st ++ [build_getrf_batched_descriptor dt' (_prod bd') k].
Proof.
  intros Hsvd Hreal Hwide Hlu Hbatch Hsmall. split.
  - unfold gesvd. resolve_shape Hsvd.
    unfold _real_type. destruct (np.finfo dt) as [rt|]; [|congruence].
    cbn [ret]. apply Z.ltb_lt in Hwide. rewrite Hwide.
    unfold bind, build_descriptor.
    destruct (provider _) as [[lwork opaque]|]; [|reflexivity].
    destruct full_matrices; reflexivity.
  - unfold getrf. resolve_shape Hlu.
    replace (1 <? _prod bd') with true by (symmetry; apply Z.ltb_lt; lia).
    rewrite Z.eqb_refl.
    replace (k / _prod bd' <=? 128) with true
      by (symmetry; apply Z.leb_le; lia).
    cbn [andb]. unfold bind, build_descriptor.
    destruct (provider _) as [[lwork opaque]|]; reflexivity.
Qed.

(** C1. [gesvd] takes the transposed path, in which the descriptor is built
    with the dimensions exchanged and the left and right singular vectors
    are read from the kernel outputs in exchanged positions, exactly when
    [m < n].  On either path, with [full_matrices = true], the returned left
    vectors have trailing shape [(m, m)] and the returned right vectors
    [(n, n)].  The provider is only asked to answer the one query of the
    call, whose dimensions are [(max(m, n), min(m, n))]; the vectors are
    outputs of the [hipsolver_gesvd] call on [a] built with the descriptor
    it returned. *)
Theorem gesvd_transposed_iff_wide
    (a : XlaOp) (dt : np.dtype) (bd : list Z) (m n : Z) (lay : list Z)
    (full_matrices compute_uv : bool) (lwork : Z) (opaque : string)
    (st : BuilderState) :
  get_shape a = Some (_Shape.array_shape dt (bd ++ [m; n]) lay) ->
  np.finfo dt <> None ->
  provider (build_gesvd_descriptor dt (_prod bd) (Z.max m n) (Z.min m n)
              compute_uv full_matrices) = Some (lwork, opaque) ->
  exists s u vt info st' q outs ins rest,
    let out := CustomCall "hipsolver_gesvd" [a] (_Shape.tuple_shape outs)
                 ins opaque API_VERSION_STATUS_RETURNING in
    gesvd provider a full_matrices compute_uv st = (Ok (s, u, vt, info), st')
    /\ descriptor_queries st' = descriptor_queries st ++ [q]
    /\ instructions st' = instructions st ++ out :: rest
    /\ (m < n <->
        q = build_gesvd_descriptor dt (_prod bd) n m compute_uv full_matrices
        /\ kernel_output u = Some (out, 3%nat)
        /\ kernel_output vt = Some (out, 2%nat))
    /\ (n <= m <->
        q = build_gesvd_descriptor dt (_prod bd) m n compute_uv full_matrices
        /\ kernel_output u = Some (out, 2%nat)
        /\ kernel_output vt = Some (out, 3%nat))
    /\ (full_matrices = true ->
        exists lu lvt,
          u = TupleElement out (if m <? n then 3%nat else 2%nat) /\
          vt = TupleElement out (if m <? n then 2%nat else 3%nat) /\
          get_shape u = Some (_Shape.array_shape dt (bd ++ [m; m]) lu) /\
          get_shape vt = Some (_Shape.array_shape dt (bd ++ [n; n]) lvt)).
Proof.
  intros Ha Hreal Hp.
  unfold gesvd. resolve_shape Ha.
  unfold _real_type. destruct (np.finfo dt) as [rt|]; [|congruence].
  cbn [ret].
  destruct (m <? n) eqn:Hwide; unfold bind, build_descriptor.
  - apply Z.ltb_lt in Hwide. rewrite Z.max_r, Z.min_l in Hp by lia.
    rewrite Hp.
    destruct full_matrices; run_call;
      (eexists _, _, _, _, _, _, _, _, _; cbn zeta;
       split; [reflexivity|]; split; [reflexivity|];
       split; [rewrite <- ?app_assoc; reflexivity|];
       repeat split;
       try reflexivity; try lia; try discriminate;
       try (intros (_ & Hu & _); discriminate Hu);
       try (intros _; eexists _, _; repeat split; reflexivity)).
  - apply Z.ltb_ge in Hwide. rewrite Z.max_l, Z.min_r in Hp by lia.
    rewrite Hp.
    destruct full_matrices; run_call;
      (eexists _, _, _, _, _, _, _, _, _; cbn zeta;
       split; [reflexivity|]; split; [reflexivity|];
       split; [rewrite <- ?app_assoc; reflexivity|];
       repeat split;
       try reflexivity; try lia; try discriminate;
       try (intros (_ & Hu & _); discriminate Hu);
       try (intros _; eexists _, _; repeat split; reflexivity)).
Qed.

(** C4. With [full_matrices = false], [gesvd] returns the left vectors
    sliced to trailing shape [(m, min(m, n))] and the right vectors sliced
    to [(min(m, n), n)], whatever the order of [m] and [n].  What is sliced
    are the left and right vector outputs, of shapes [(m, m)] and [(n, n)],
    of the [hipsolver_gesvd] call on [a] built with the descriptor the
    provider returned for the one query of the call. *)
Theorem gesvd_economy_shapes
    (a : XlaOp) (dt : np.dtype) (bd : list Z) (m n : Z) (lay : list Z)
    (compute_uv : bool) (lwork : Z) (opaque : string) (st : BuilderState) :
  get_shape a = Some (_Shape.array_shape dt (bd ++ [m; n]) lay) ->
  Forall (fun d => 0 <= d) (bd ++ [m; n]) ->
  np.finfo dt <> None ->
  provider (build_gesvd_descriptor dt (_prod bd) (Z.max m n) (Z.min m n)
              compute_uv false) = Some (lwork, opaque) ->
  exists outs ins st' lu_full lvt_full lu lvt,
    let out := CustomCall "hipsolver_gesvd" [a] (_Shape.tuple_shape outs)
                 ins opaque API_VERSION_STATUS_RETURNING in
    let s := TupleElement out 1 in
    let info := TupleElement out 4 in
    let u_full := TupleElement out (if m <? n then 3%nat else 2%nat) in
    let vt_full := TupleElement out (if m <? n then 2%nat else 3%nat) in
    let u := SliceOf u_full (repeat 0 (length (bd ++ [m; n])))
               (bd ++ [m; Z.min m n]) (repeat 1 (length (bd ++ [m; n]))) in
    let vt := SliceOf vt_full (repeat 0 (length (bd ++ [m; n])))
                (bd ++ [Z.min m n; n]) (repeat 1 (length (bd ++ [m; n]))) in
    gesvd provider a false compute_uv st = (Ok (s, u, vt, info), st')
    /\ descriptor_queries st'
       = descriptor_queries st
         ++ [build_gesvd_descriptor dt (_prod bd) (Z.max m n) (Z.min m n)
               compute_uv false]
    /\ instructions st'
       = instructions st
         ++ [out; s; if m <? n then vt_full else u_full;
             if m <? n then u_full else vt_full; info; u; vt]
    /\ get_shape u_full
       = Some (_Shape.array_shape dt (bd ++ [m; m]) lu_full)
    /\ get_shape vt_full
       = Some (_Shape.array_shape dt (bd ++ [n; n]) lvt_full)
    /\ get_shape u = Some (_Shape.array_shape dt (bd ++ [m; Z.min m n]) lu)
    /\ get_shape vt = Some (_Shape.array_shape dt (bd ++ [Z.min m n; n]) lvt).
Proof.
  intros Ha Hpos Hreal Hp.
  apply Forall_app in Hpos as [Hbd Hmn].
  assert (Hm : 0 <= m) by (inversion Hmn; assumption).
  assert (Hn : 0 <= n).
  { inversion Hmn as [|? ? _ Hn']. inversion Hn'. assumption. }
  assert (Hu : slice_dimensions (bd ++ [m; m])
                 (repeat 0 (S (S (length bd)))) (bd ++ [m; Z.min m n])
                 (repeat 1 (S (S (length bd))))
               = Some (bd ++ [m; Z.min m n]))
    by (apply slice_dimensions_trailing; [assumption | lia | lia]).
  assert (Hvt : slice_dimensions (bd ++ [n; n])
                  (repeat 0 (S (S (length bd)))) (bd ++ [Z.min m n; n])
                  (repeat 1 (S (S (length bd))))
                = Some (bd ++ [Z.min m n; n]))
    by (apply slice_dimensions_trailing; [assumption | lia | lia]).
  unfold gesvd. resolve_shape Ha.
  unfold _real_type. destruct (np.finfo dt) as [rt|]; [|congruence].
  cbn [ret].
  destruct (m <? n) eqn:Hwide; unfold bind, build_descriptor.
  - pose proof (proj1 (Z.ltb_lt _ _) Hwide) as Hlt.
    replace (Z.max m n) with n in * by lia.
    replace (Z.min m n) with m in * by lia.
    rewrite Hp. cbn -[slice_dimensions repeat].
    eexists _, _, _, _, _, _, _. cbn zeta.
    split; [reflexivity|]. split; [reflexivity|].
    split; [rewrite <- !app_assoc; reflexivity|].
    cbn -[slice_dimensions repeat].
    rewrite Hu, Hvt. repeat split; reflexivity.
  - pose proof (proj1 (Z.ltb_ge _ _) Hwide) as Hge.
    replace (Z.max m n) with m in * by lia.
    replace (Z.min m n) with n in * by lia.
    rewrite Hp. cbn -[slice_dimensions repeat].
    eexists _, _, _, _, _, _, _. cbn zeta.
    split; [reflexivity|]. split; [reflexivity|].
    split; [rewrite <- !app_assoc; reflexivity|].
    cbn -[slice_dimensions repeat].
    rewrite Hu, Hvt. repeat split; reflexivity.
Qed.


(** C6. When the shape of [a] is not the batch prefix of [b] followed by
    [(k, k)], or the element types differ, [trsm] raises the argument
    mismatch error carrying both shapes, and leaves the builder and the
    provider untouched. *)
Theorem trsm_argument_mismatch
    (a b : XlaOp) (sa : Shape) (dt : np.dtype) (bd : list Z) (m n : Z)
    (lay : list Z) (left_side lower trans_a conj_a diag : bool)
    (st : BuilderState) :
  get_shape b = Some (_Shape.array_shape dt (bd ++ [m; n]) lay) ->
  get_shape a = Some sa ->
  (_Shape.dimensions sa
     <> bd ++ [if left_side then m else n; if left_side then m else n]
   \/ _Shape.element_type sa <> Some dt) ->
  trsm provider a b left_side lower trans_a conj_a diag st
  = (Raise (ValueError "Argument mismatch for trsm, got {} and {}"
              [sa; _Shape.array_shape dt (bd ++ [m; n]) lay]),
     st).
Proof.
  intros Hb Ha Hdiff.
  unfold trsm. resolve_shape Hb. rewrite Ha. cbn [ret].
  destruct (list_Z_eqb
              (bd ++ [if left_side then m else n;
                      if left_side then m else n])
              (_Shape.dimensions sa)) eqn:Hdims.
  - apply list_Z_eqb_true in Hdims.
    destruct Hdiff as [Hdiff | Hdiff]; [congruence|].
    destruct sa as [dta dimsa laya | shapes].
    + cbn in Hdiff |- *.
      destruct (np.dtype_eqb dta dt) eqn:Hdt.
      * apply dtype_eqb_true in Hdt. congruence.
      * reflexivity.
    + cbn in Hdims. destruct bd; discriminate Hdims.
  - reflexivity.
Qed.

(** C7, as the code has it.  A [trsm] call with [conj_a = true] and
    [trans_a = false] never reaches the provider or the builder: it is
    always rejected with the state untouched.  The shape checks come first:
    the rejection is the unsupported-feature error exactly when [b] has at
    least two dimensions and [a] has the batch prefix of [b] followed by
    [(k, k)] and the element type of [b]; on a [b] with fewer dimensions it
    is the failure of the length assertion, on an [a] that disagrees it is
    the argument mismatch error carrying both shapes, and whenever it is
    not the unsupported-feature error it is the error the same operands
    raise under every other combination of flags.  With any other
    combination of [conj_a] and [trans_a] the unsupported-feature error is
    never raised. *)
Theorem trsm_conjugation_without_transposition
    (a b : XlaOp) (left_side lower diag : bool) (st : BuilderState) :
  (exists e,
     trsm provider a b left_side lower false true diag st = (Raise e, st))
  /\
  (forall dt bd m n lay lay_a,
     get_shape b = Some (_Shape.array_shape dt (bd ++ [m; n]) lay) ->
     get_shape a
     = Some (_Shape.array_shape dt
               (bd ++ [if left_side then m else n;
                       if left_side then m else n]) lay_a) ->
     trsm provider a b left_side lower false true diag st
     = (Raise (NotImplementedError
                 "Conjugation without transposition not supported"), st))
  /\
  (forall msg,
     fst (trsm provider a b left_side lower false true diag st)
     = Raise (NotImplementedError msg) ->
     exists dt bd m n lay lay_a,
       get_shape b = Some (_Shape.array_shape dt (bd ++ [m; n]) lay) /\
       get_shape a
       = Some (_Shape.array_shape dt
                 (bd ++ [if left_side then m else n;
                         if left_side then m else n]) lay_a))
  /\
  (forall dt dims lay,
     get_shape b = Some (_Shape.array_shape dt dims lay) ->
     (length dims < 2)%nat ->
     trsm provider a b left_side lower false true diag st
     = (Raise AssertionError, st))
  /\
  (forall sa dt bd m n lay,
     get_shape b = Some (_Shape.array_shape dt (bd ++ [m; n]) lay) ->
     get_shape a = Some sa ->
     (_Shape.dimensions sa
        <> bd ++ [if left_side then m else n; if left_side then m else n]
      \/ _Shape.element_type sa <> Some dt) ->
     trsm provider a b left_side lower false true diag st
     = (Raise (ValueError "Argument mismatch for trsm, got {} and {}"
                 [sa; _Shape.array_shape dt (bd ++ [m; n]) lay]),
        st))
  /\
  (forall e,
     fst (trsm provider a b left_side lower false true diag st) = Raise e ->
     (forall msg, e <> NotImplementedError msg) ->
     forall trans_a conj_a,
       trsm provider a b left_side lower trans_a conj_a diag st
       = (Raise e, st))
  /\
  (forall trans_a conj_a msg,
     conj_a && negb trans_a = false ->
     fst (trsm provider a b left_side lower trans_a conj_a diag st)
     <> Raise (NotImplementedError msg)).
Proof.
  split; [|split; [|split; [|split; [|split; [|split]]]]].
  - unfold trsm, bind, c_get_shape, element_type, assert, unpack2.
    repeat (branch; cbn [ret raise andb negb]);
      eexists; reflexivity.
  - intros dt bd m n lay lay_a Hb Ha.
    unfold trsm. resolve_shape Hb. rewrite Ha.
    cbn [ret _Shape.dimensions _Shape.element_type].
    replace (list_Z_eqb _ _) with true
      by (symmetry; apply list_Z_eqb_true; reflexivity).
    cbn [negb element_type _Shape.element_type ret].
    replace (np.dtype_eqb dt dt) with true
      by (symmetry; apply dtype_eqb_true; reflexivity).
    reflexivity.
  - intros msg.
    unfold trsm, bind, c_get_shape.
    destruct (get_shape b) as [sb|] eqn:Hb; [|discriminate].
    destruct sb as [dt dims lay | shapes]; [|discriminate].
    cbn [ret element_type _Shape.element_type _Shape.dimensions].
    destruct (2 <=? length dims)%nat; [|discriminate].
    cbn [assert ret].
    destruct (last_two dims) as [|m [|n [|extra rest]]] eqn:Hlast;
      try discriminate.
    cbn [unpack2 ret].
    destruct (get_shape a) as [sa|] eqn:Ha; [|discriminate].
    cbn [ret].
    destruct (list_Z_eqb _ (_Shape.dimensions sa)) eqn:Hdims;
      [|discriminate].
    apply list_Z_eqb_true in Hdims.
    destruct sa as [dta dimsa laya | shapes]; [|discriminate].
    cbn [negb element_type _Shape.element_type ret].
    destruct (np.dtype_eqb dta dt) eqn:Hdt; [|discriminate].
    apply dtype_eqb_true in Hdt. subst dta.
    cbn [_Shape.dimensions] in Hdims. subst dimsa.
    intros _. exists dt, (all_but_last_two dims), m, n, lay, laya.
    split; [|reflexivity].
    rewrite (split_last_two dims) at 1. now rewrite Hlast.
  - intros dt dims lay Hb Hrank.
    unfold trsm, bind, c_get_shape. rewrite Hb.
    cbn [ret element_type _Shape.element_type _Shape.dimensions].
    replace (2 <=? length dims)%nat with false
      by (symmetry; apply Nat.leb_gt; exact Hrank).
    reflexivity.
  - intros sa dt bd m n lay Hb Ha Hdiff.
    unfold trsm. resolve_shape Hb. rewrite Ha. cbn [ret].
    destruct (list_Z_eqb
                (bd ++ [if left_side then m else n;
                        if left_side then m else n])
                (_Shape.dimensions sa)) eqn:Hdims.
    + apply list_Z_eqb_true in Hdims.
      destruct Hdiff as [Hdiff | Hdiff]; [congruence|].
      destruct sa as [dta dimsa laya | shapes].
      * cbn in Hdiff |- *.
        destruct (np.dtype_eqb dta dt) eqn:Hdt.
        -- apply dtype_eqb_true in Hdt. congruence.
        -- reflexivity.
      * cbn in Hdims. destruct bd; discriminate Hdims.
    + reflexivity.
  - intros e He Hnot trans_a conj_a. revert He.
    unfold trsm, bind, c_get_shape, element_type, assert, unpack2.
    repeat (branch; cbn [ret raise andb negb fst]);
      intros He; inversion He; subst;
      first [reflexivity | exfalso; eapply Hnot; reflexivity].
  - intros trans_a conj_a msg Hflags.
    unfold trsm, bind, c_get_shape, element_type, assert, unpack2,
      build_descriptor, _ops.CustomCallWithLayout, _ops.GetTupleElement, emit.
    rewrite Hflags.
    repeat (branch; cbn [ret raise fst]); discriminate.
Qed.

(** C8, as the code has it.  [potrf] and [syevd] on an operand whose two
    trailing dimensions differ fail their squareness assertion before any
    descriptor is built: the error is a bare assertion failure, and the
    state is untouched. *)
Theorem nonsquare_operand_fails_assertion
    (a : XlaOp) (dt : np.dtype) (bd : list Z) (m n : Z) (lay : list Z)
    (lower : bool) (st : BuilderState) :
  get_shape a = Some (_Shape.array_shape dt (bd ++ [m; n]) lay) ->
  m <> n ->
  potrf provider a lower st = (Raise AssertionError, st) /\
  syevd provider a lower st = (Raise AssertionError, st) /\
  reported_shapes AssertionError = [].
Proof.
  intros Ha Hneq. apply Z.eqb_neq in Hneq.
  split; [|split].
  - unfold potrf. resolve_shape Ha. now rewrite Hneq.
  - unfold syevd. resolve_shape Ha. now rewrite Hneq.
  - reflexivity.
Qed.

(** C3, as the code has it.  In every call request, a buffer with the
    call's [num_bd] batch dimensions followed by one more dimension is laid
    out as [(num_bd, num_bd-1, ..., 0)], and a buffer with two more
    dimensions as [(num_bd, num_bd+1, num_bd-1, ..., 0)], except in a
    [gesvd] call on an operand with [m < n], whose matrix buffers are all
    declared with the two matrix dimensions exchanged,
    [(num_bd+1, num_bd, num_bd-1, ..., 0)]. *)
Theorem declared_buffer_layouts
    (o : Operation) (st : BuilderState) (instr : XlaOp) (s : Shape) :
  In instr (added st (snd (run provider o st))) ->
  In s (declared_buffers instr) ->
  (rank s = (batch_rank o + 2)%nat ->
     (gesvd_on_wide_operand o = false ->
        _Shape.minor_to_major s = canonical_matrix_layout (batch_rank o)) /\
     (gesvd_on_wide_operand o = true ->
        _Shape.minor_to_major s = transposed_matrix_layout (batch_rank o)))
  /\
  (rank s = (batch_rank o + 1)%nat ->
     _Shape.minor_to_major s = canonical_vector_layout (batch_rank o)).
Proof.
  destruct o; check_layouts.
Qed.

End Claims.

(** ** The operations on concrete operands *)

Lemma sample_provider_total : forall q, sample_provider q <> None.
Proof. intros q. discriminate. Qed.

(** A batch of four 8x8 matrices goes to the batched LU kernel. *)
Example getrf_batch4_side8 :
  exists lu pivots info st',
    getrf sample_provider (f32 0 [4; 8; 8]) empty_state
    = (Ok (lu, pivots, info), st') /\
    kernel_name lu = Some "hipblas_getrf_batched"%string.
Proof. eexists _, _, _, _. split; vm_compute; reflexivity. Qed.

(** A single 1024x1024 matrix goes to the general LU kernel. *)
Example getrf_batch1_side1024 :
  exists lu pivots info st',
    getrf sample_provider (f32 0 [1024; 1024]) empty_state
    = (Ok (lu, pivots, info), st') /\
    kernel_name lu = Some "hipsolver_getrf"%string.
Proof. eexists _, _, _, _. split; vm_compute; reflexivity. Qed.

(** A 3x5 operand takes the transposed path of [gesvd]; the economy result
    has left vectors of shape [(3, 3)] and right vectors of shape [(3, 5)]. *)
Example gesvd_3x5_economy :
  exists s u vt info st',
    gesvd sample_provider (f32 0 [3; 5]) false true empty_state
    = (Ok (s, u, vt, info), st') /\
    descriptor_queries st'
    = [build_gesvd_descriptor np.float32 1 5 3 true false] /\
    get_shape u = Some (_Shape.array_shape np.float32 [3; 3] [1; 0]) /\
    get_shape vt = Some (_Shape.array_shape np.float32 [3; 5] [1; 0]).
Proof. eexists _, _, _, _, _. repeat split; vm_compute; reflexivity. Qed.


Lemma getrf_kernel_choice_witness :
  get_shape (f32 0 [4; 8; 8])
  = Some (_Shape.array_shape np.float32 ([4] ++ [8; 8]) [2; 1; 0])
  /\ sample_provider
       (if (1 <? _prod [4]) && (8 =? 8) && (8 / _prod [4] <=? 128)
        then build_getrf_batched_descriptor np.float32 (_prod [4]) 8
        else build_getrf_descriptor np.float32 (_prod [4]) 8 8)
     = Some (64, "descriptor"%string)
  /\ exists kernel outs ins lu pivots info st',
       let out := CustomCall kernel [f32 0 [4; 8; 8]]
                    (_Shape.tuple_shape outs) ins "descriptor"
                    API_VERSION_STATUS_RETURNING in
       getrf sample_provider (f32 0 [4; 8; 8]) empty_state
       = (Ok (lu, pivots, info), st') /\
       lu = TupleElement out 0 /\
       pivots = TupleElement out 1 /\
       info = TupleElement out 2 /\
       instructions st'
       = instructions empty_state ++ [out; lu; pivots; info] /\
       descriptor_queries st'
       = descriptor_queries empty_state
         ++ [if (1 <? _prod [4]) && (8 =? 8) && (8 / _prod [4] <=? 128)
             then build_getrf_batched_descriptor np.float32 (_prod [4]) 8
             else build_getrf_descriptor np.float32 (_prod [4]) 8 8] /\
       (kernel_name lu = Some "hipblas_getrf_batched"%string
          <-> _prod [4] > 1 /\ 8 = 8 /\ 8 / _prod [4] <= 128) /\
       (kernel_name lu = Some "hipsolver_getrf"%string
          <-> ~ (_prod [4] > 1 /\ 8 = 8 /\ 8 / _prod [4] <= 128)).
Proof.
  split; [reflexivity|]. split; [reflexivity|].
  apply (getrf_kernel_choice sample_provider (f32 0 [4; 8; 8]) np.float32
           [4] 8 8 [2; 1; 0] 64 "descriptor" empty_state); reflexivity.
Defined.

Lemma descriptor_query_uses_resolved_dimensions_witness :
  descriptor_queries
    (snd (gesvd sample_provider (f32 0 [3; 5]) true true empty_state))
  = descriptor_queries empty_state
    ++ [build_gesvd_descriptor np.float32 (_prod []) 5 3 true true]
  /\
  descriptor_queries (snd (getrf sample_provider (f32 1 [4; 8; 8]) empty_state))
  = descriptor_queries empty_state
    ++ [build_getrf_batched_descriptor np.float32 (_prod [4]) 8].
Proof.
  apply (descriptor_query_uses_resolved_dimensions sample_provider
           (f32 0 [3; 5]) np.float32 [] 3 5 [1; 0] true true
           (f32 1 [4; 8; 8]) np.float32 [4] 8 [2; 1; 0] empty_state);
    try reflexivity; try discriminate; vm_compute; congruence.
Defined.

Lemma gesvd_transposed_iff_wide_witness :
  get_shape (f32 0 [3; 5])
  = Some (_Shape.array_shape np.float32 ([] ++ [3; 5]) [1; 0])
  /\ np.finfo np.float32 <> None
  /\ sample_provider
       (build_gesvd_descriptor np.float32 (_prod []) (Z.max 3 5) (Z.min 3 5)
          true true) = Some (64, "descriptor"%string)
  /\ exists s u vt info st' q outs ins rest,
       let out := CustomCall "hipsolver_gesvd" [f32 0 [3; 5]]
                    (_Shape.tuple_shape outs) ins "descriptor"
                    API_VERSION_STATUS_RETURNING in
       gesvd sample_provider (f32 0 [3; 5]) true true empty_state
       = (Ok (s, u, vt, info), st')
       /\ descriptor_queries st' = descriptor_queries empty_state ++ [q]
       /\ instructions st' = instructions empty_state ++ out :: rest
       /\ (3 < 5 <->
           q = build_gesvd_descriptor np.float32 (_prod []) 5 3 true true
           /\ kernel_output u = Some (out, 3%nat)
           /\ kernel_output vt = Some (out, 2%nat))
       /\ (5 <= 3 <->
           q = build_gesvd_descriptor np.float32 (_prod []) 3 5 true true
           /\ kernel_output u = Some (out, 2%nat)
           /\ kernel_output vt = Some (out, 3%nat))
       /\ (true = true ->
           exists lu lvt,
             u = TupleElement out (if 3 <? 5 then 3%nat else 2%nat) /\
             vt = TupleElement out (if 3 <? 5 then 2%nat else 3%nat) /\
             get_shape u
             = Some (_Shape.array_shape np.float32 ([] ++ [3; 3]) lu) /\
             get_shape vt
             = Some (_Shape.array_shape np.float32 ([] ++ [5; 5]) lvt)).
Proof.
  split; [reflexivity|]. split; [discriminate|]. split; [reflexivity|].
  apply (gesvd_transposed_iff_wide sample_provider (f32 0 [3; 5]) np.float32
           [] 3 5 [1; 0] true true 64 "descriptor" empty_state);
    [reflexivity | discriminate | reflexivity].
Defined.

Lemma gesvd_economy_shapes_witness :
  get_shape (f32 0 [7; 3; 5])
  = Some (_Shape.array_shape np.float32 ([7] ++ [3; 5]) [2; 1; 0])
  /\ Forall (fun d => 0 <= d) ([7] ++ [3; 5])
  /\ sample_provider
       (build_gesvd_descriptor np.float32 (_prod [7]) (Z.max 3 5)
          (Z.min 3 5) true false) = Some (64, "descriptor"%string)
  /\ exists outs ins st' lu_full lvt_full lu lvt,
       let out := CustomCall "hipsolver_gesvd" [f32 0 [7; 3; 5]]
                    (_Shape.tuple_shape outs) ins "descriptor"
                    API_VERSION_STATUS_RETURNING in
       let s := TupleElement out 1 in
       let info := TupleElement out 4 in
       let u_full := TupleElement out (if 3 <? 5 then 3%nat else 2%nat) in
       let vt_full := TupleElement out (if 3 <? 5 then 2%nat else 3%nat) in
       let u := SliceOf u_full (repeat 0 (length ([7] ++ [3; 5])))
                  ([7] ++ [3; Z.min 3 5])
                  (repeat 1 (length ([7] ++ [3; 5]))) in
       let vt := SliceOf vt_full (repeat 0 (length ([7] ++ [3; 5])))
                   ([7] ++ [Z.min 3 5; 5])
                   (repeat 1 (length ([7] ++ [3; 5]))) in
       gesvd sample_provider (f32 0 [7; 3; 5]) false true empty_state
       = (Ok (s, u, vt, info), st')
       /\ descriptor_queries st'
          = descriptor_queries empty_state
            ++ [build_gesvd_descriptor np.float32 (_prod [7]) (Z.max 3 5)
                  (Z.min 3 5) true false]
       /\ instructions st'
          = instructions empty_state
            ++ [out; s; if 3 <? 5 then vt_full else u_full;
                if 3 <? 5 then u_full else vt_full; info; u; vt]
       /\ get_shape u_full
          = Some (_Shape.array_shape np.float32 ([7] ++ [3; 3]) lu_full)
       /\ get_shape vt_full
          = Some (_Shape.array_shape np.float32 ([7] ++ [5; 5]) lvt_full)
       /\ get_shape u
          = Some (_Shape.array_shape np.float32 ([7] ++ [3; Z.min 3 5]) lu)
       /\ get_shape vt
          = Some (_Shape.array_shape np.float32 ([7] ++ [Z.min 3 5; 5]) lvt).
Proof.
  assert (Hpos : Forall (fun d => 0 <= d) ([7] ++ [3; 5]))
    by (repeat constructor; lia).
  split; [reflexivity|]. split; [exact Hpos|]. split; [reflexivity|].
  apply (gesvd_economy_shapes sample_provider (f32 0 [7; 3; 5]) np.float32
           [7] 3 5 [2; 1; 0] true 64 "descriptor" empty_state);
    [reflexivity | exact Hpos | discriminate | reflexivity].
Defined.


Lemma trsm_argument_mismatch_witness :
  trsm sample_provider (f32 0 [2; 3; 4; 4]) (f32 1 [2; 4; 4; 5])
    true false false false false empty_state
  = (Raise (ValueError "Argument mismatch for trsm, got {} and {}"
              [_Shape.array_shape np.float32 [2; 3; 4; 4] [3; 2; 1; 0];
               _Shape.array_shape np.float32 ([2; 4] ++ [4; 5])
                 [3; 2; 1; 0]]),
     empty_state).
Proof.
  apply (trsm_argument_mismatch sample_provider
           (f32 0 [2; 3; 4; 4]) (f32 1 [2; 4; 4; 5])
           (_Shape.array_shape np.float32 [2; 3; 4; 4] [3; 2; 1; 0])
           np.float32 [2; 4] 4 5 [3; 2; 1; 0] true false false false false
           empty_state);
    [reflexivity | reflexivity | left; discriminate].
Defined.

Lemma trsm_conjugation_without_transposition_witness :
  trsm sample_provider (f32 0 [2; 4; 4]) (f32 1 [2; 4; 5])
    true false false true false empty_state
  = (Raise (NotImplementedError
              "Conjugation without transposition not supported"),
     empty_state)
  /\
  trsm sample_provider (f32 0 [2; 3; 4; 4]) (f32 1 [2; 4; 4; 5])
    true false false true false empty_state
  = (Raise (ValueError "Argument mismatch for trsm, got {} and {}"
              [_Shape.array_shape np.float32 [2; 3; 4; 4] [3; 2; 1; 0];
               _Shape.array_shape np.float32 ([2; 4] ++ [4; 5])
                 [3; 2; 1; 0]]),
     empty_state).
Proof.
  split.
  - apply (proj1 (proj2 (trsm_conjugation_without_transposition
                           sample_provider (f32 0 [2; 4; 4])
                           (f32 1 [2; 4; 5]) true false false empty_state))
             np.float32 [2] 4 5 [2; 1; 0] [2; 1; 0]);
      reflexivity.
  - apply (proj1 (proj2 (proj2 (proj2 (proj2
             (trsm_conjugation_without_transposition
                sample_provider (f32 0 [2; 3; 4; 4]) (f32 1 [2; 4; 4; 5])
                true false false empty_state)))))
             (_Shape.array_shape np.float32 [2; 3; 4; 4] [3; 2; 1; 0])
             np.float32 [2; 4] 4 5 [3; 2; 1; 0]);
      [reflexivity | reflexivity | left; discriminate].
Defined.

Lemma nonsquare_operand_fails_assertion_witness :
  2 <> 3 /\
  potrf sample_provider (f32 0 [2; 3]) true empty_state
  = (Raise AssertionError, empty_state) /\
  syevd sample_provider (f32 0 [2; 3]) true empty_state
  = (Raise AssertionError, empty_state) /\
  reported_shapes AssertionError = [].
Proof.
  split; [discriminate|].
  apply (nonsquare_operand_fails_assertion sample_provider (f32 0 [2; 3])
           np.float32 [] 2 3 [1; 0] true empty_state);
    [reflexivity | discriminate].
Defined.

Lemma declared_buffer_layouts_witness :
  In sample_potrf_request
    (added empty_state
       (snd (run sample_provider (call_potrf (f32 0 [10; 4; 4]) true)
               empty_state)))
  /\ In (_Shape.array_shape np.float32 [10; 4; 4] [1; 2; 0])
       (declared_buffers sample_potrf_request)
  /\ _Shape.minor_to_major (_Shape.array_shape np.float32 [10; 4; 4] [1; 2; 0])
     = canonical_matrix_layout 1.
Proof.
  assert (Hin : In sample_potrf_request
                  (added empty_state
                     (snd (run sample_provider
                             (call_potrf (f32 0 [10; 4; 4]) true)
                             empty_state))))
    by (left; reflexivity).
  assert (Hs : In (_Shape.array_shape np.float32 [10; 4; 4] [1; 2; 0])
                 (declared_buffers sample_potrf_request))
    by (left; reflexivity).
  split; [exact Hin|]. split; [exact Hs|].
  exact (proj1 (proj1 (declared_buffer_layouts sample_provider
                         (call_potrf (f32 0 [10; 4; 4]) true) empty_state
                         sample_potrf_request
                         (_Shape.array_shape np.float32 [10; 4; 4] [1; 2; 0])
                         Hin Hs) eq_refl) eq_refl).
Defined.

(** ** Where the code departs from the specification *)

(** C3 fails on [gesvd] with a 3x5 operand: the matrix buffers of the call
    are not laid out as [(num_bd, num_bd+1, ...)]. *)
Lemma gesvd_wide_matrix_layout_not_canonical :
  let o := call_gesvd (f32 0 [3; 5]) true true in
  ~ (forall instr s,
       In instr (added empty_state (snd (run sample_provider o empty_state))) ->
       In s (declared_buffers instr) ->
       rank s = (batch_rank o + 2)%nat ->
       _Shape.minor_to_major s = canonical_matrix_layout (batch_rank o)).
Proof.
  intros o H.
  specialize (H _ _ (or_introl eq_refl) (or_introl eq_refl) eq_refl).
  vm_compute in H. discriminate H.
Qed.

(** C7 fails when the operands of [trsm] do not agree: the shape check
    comes first and its error is the one raised. *)
Lemma trsm_conj_without_trans_shape_check_first :
  ~ (exists msg st',
       trsm sample_provider (f32 0 [2; 2]) (f32 1 [3; 3])
         false false false true false empty_state
       = (Raise (NotImplementedError msg), st')).
Proof.
  intros (msg & st' & H). vm_compute in H. discriminate H.
Qed.

(** C8 fails on [potrf] with a 2x3 operand: the error raised reports no
    shape. *)
Lemma potrf_nonsquare_error_reports_no_shape :
  ~ (exists e st',
       potrf sample_provider (f32 0 [2; 3]) true empty_state = (Raise e, st')
       /\ In (_Shape.array_shape np.float32 [2; 3] [1; 0])
            (reported_shapes e)).
Proof.
  intros (e & st' & H & Hin). vm_compute in H.
  inversion H; subst. exact Hin.
Qed.

(** * Further properties of the operations *)

(** ** Batch size *)

Lemma fold_left_mul_from (xs : list Z) (acc : Z) :
  fold_left Z.mul xs acc = acc * fold_left Z.mul xs 1.
Proof.
  revert acc. induction xs as [|x xs IH]; intros acc; cbn [fold_left].
  - lia.
  - rewrite IH, (IH (1 * x)). lia.
Qed.

Lemma prod_cons (x : Z) (xs : list Z) : _prod (x :: xs) = x * _prod xs.
Proof.
  unfold _prod. cbn [fold_left]. rewrite fold_left_mul_from. lia.
Qed.

(** X1. The batch size of a batch prefix made of two parts is the product of
    the batch sizes of the parts. *)
Theorem prod_of_concatenation (xs ys : list Z) :
  _prod (xs ++ ys) = _prod xs * _prod ys.
Proof.
  unfold _prod. rewrite fold_left_app.
  rewrite fold_left_mul_from. reflexivity.
Qed.

(** X2. The batch size is zero exactly when some batch dimension is zero. *)
Theorem prod_zero_iff (xs : list Z) : _prod xs = 0 <-> In 0 xs.
Proof.
  induction xs as [|x xs IH].
  - cbn. split; [discriminate | contradiction].
  - rewrite prod_cons. cbn [In]. rewrite <- IH. split.
    + intros H. apply Z.mul_eq_0 in H. tauto.
    + intros [-> | ->]; lia.
Qed.

(** The batch size of non-negative dimensions is non-negative. *)
Lemma prod_nonneg (xs : list Z) :
  Forall (fun d => 0 <= d) xs -> 0 <= _prod xs.
Proof.
  induction 1 as [|x xs Hx _ IH].
  - cbn. lia.
  - rewrite prod_cons. lia.
Qed.

(** ** The trailing dimension of a vector operand *)

Lemma all_but_last_app (bd : list Z) (k : Z) : all_but_last (bd ++ [k]) = bd.
Proof.
  unfold all_but_last. rewrite length_app. cbn [length].
  replace (length bd + 1 - 1)%nat with (length bd) by lia.
  rewrite firstn_app, Nat.sub_diag, firstn_all. cbn. apply app_nil_r.
Qed.

Lemma last_item_app (bd : list Z) (k : Z) : last_item (bd ++ [k]) = ret k.
Proof. unfold last_item. now rewrite rev_app_distr. Qed.

Lemma list_Z_eqb_refl (xs : list Z) : list_Z_eqb xs xs = true.
Proof. now apply list_Z_eqb_true. Qed.

(** ** Layouts as permutations *)

Lemma countdown_permutation (k : nat) :
  Permutation (countdown k) (dimension_indices k).
Proof.
  rewrite countdown_rev_seq. unfold dimension_indices.
  apply Permutation_map, Permutation_sym, Permutation_rev.
Qed.

Lemma dimension_indices_S (k : nat) :
  dimension_indices (S k) = dimension_indices k ++ [Z.of_nat k].
Proof. unfold dimension_indices. now rewrite seq_S, map_app. Qed.

Lemma scalar_layout_permutation (k r : nat) :
  r = k ->
  Permutation (range_down (Z.of_nat k - 1)) (dimension_indices r).
Proof. intros ->. rewrite range_down_pred. apply countdown_permutation. Qed.

Lemma vector_layout_permutation (k r : nat) :
  r = (k + 1)%nat ->
  Permutation (range_down (Z.of_nat k)) (dimension_indices r).
Proof.
  intros ->. rewrite range_down_nat, Nat.add_1_r, dimension_indices_S.
  apply Permutation_cons_app. rewrite app_nil_r.
  apply countdown_permutation.
Qed.

Lemma vector_layout_cons_permutation (k r : nat) :
  r = (k + 1)%nat ->
  Permutation (Z.of_nat k :: range_down (Z.of_nat k - 1))
    (dimension_indices r).
Proof.
  intros Hr. rewrite range_down_pred, <- range_down_nat.
  now apply vector_layout_permutation.
Qed.

Lemma matrix_layout_permutation (k r : nat) :
  r = (k + 2)%nat ->
  Permutation (Z.of_nat k :: Z.of_nat k + 1 :: range_down (Z.of_nat k - 1))
    (dimension_indices r).
Proof.
  intros ->. replace (k + 2)%nat with (S (S k)) by lia.
  rewrite !dimension_indices_S, range_down_pred, <- app_assoc. cbn [app].
  replace (Z.of_nat k + 1) with (Z.of_nat (S k)) by lia.
  apply Permutation_cons_app. apply Permutation_cons_app.
  rewrite app_nil_r. apply countdown_permutation.
Qed.

Lemma transposed_layout_permutation (k r : nat) :
  r = (k + 2)%nat ->
  Permutation (Z.of_nat k + 1 :: Z.of_nat k :: range_down (Z.of_nat k - 1))
    (dimension_indices r).
Proof.
  intros Hr. etransitivity; [apply perm_swap|].
  now apply matrix_layout_permutation.
Qed.

Lemma workspace_layout_permutation (r : nat) :
  r = 1%nat -> Permutation [0] (dimension_indices r).
Proof. intros ->. reflexivity. Qed.

Ltac permutation_goal :=
  unfold rank; cbn [_Shape.dimensions _Shape.minor_to_major app];
  first
    [ apply matrix_layout_permutation
    | apply transposed_layout_permutation
    | apply vector_layout_permutation
    | apply vector_layout_cons_permutation
    | apply scalar_layout_permutation
    | apply workspace_layout_permutation ];
  rewrite ?length_app, ?length_all_but_last_two; cbn [length]; lia.

Ltac check_permutations :=
  unfold_ops; run_branches;
  rewrite <- ?app_assoc; cbn [app];
  rewrite ?added_same, ?added_none, ?added_app;
  (let Hin := fresh "Hin" in
   intros Hin; in_cases Hin;
   let Hs := fresh "Hs" in
   intros Hs; cbn [declared_buffers app] in Hs; in_cases Hs;
   use_checks; permutation_goal).


Section Coverage.

Variable provider : DescriptorQuery -> option (Z * string).

(** X3. Every buffer a call request declares, operand or result, workspace
    included, has a layout that is a permutation of its dimension indices
    [0 .. rank-1]. *)
Theorem declared_layouts_are_permutations
    (o : Operation) (st : BuilderState) (instr : XlaOp) (s : Shape) :
  In instr (added st (snd (run provider o st))) ->
  In s (declared_buffers instr) ->
  Permutation (_Shape.minor_to_major s) (dimension_indices (rank s)).
Proof.
  destruct o; check_permutations.
Qed.

(** X4. On an operand with fewer than two dimensions every operation stops
    before it reaches the provider or the builder: [potrf], which unpacks
    the trailing dimensions without checking their number, with the
    [ValueError] of the failed unpacking, the other operations with the
    failure of their [assert len(dims) >= 2]. *)
Theorem operand_of_rank_below_two
    (o : Operation) (dt : np.dtype) (dims lay : list Z)
    (st : BuilderState) :
  get_shape (primary_operand o) = Some (_Shape.array_shape dt dims lay) ->
  (length dims < 2)%nat ->
  match o with
  | call_potrf _ _ =>
      exists msg, run provider o st = (Raise (ValueError msg []), st)
  | _ => run provider o st = (Raise AssertionError, st)
  end.
Proof.
  intros Hshape Hrank.
  assert (Hcheck : (2 <=? length dims)%nat = false)
    by (apply Nat.leb_gt; exact Hrank).
  destruct o; cbn [primary_operand] in Hshape;
    unfold run, trsm, potrf, getrf, geqrf, orgqr, syevd, gesvd;
    unfold bind, c_get_shape; rewrite Hshape;
    cbn [ret element_type _Shape.element_type _Shape.dimensions];
    rewrite ?Hcheck; try reflexivity.
  destruct dims as [|x [|y dims]]; cbn in Hrank; try lia;
    eexists; reflexivity.
Qed.

(** X5. A call that fails adds no instruction to the builder and has queried
    the provider at most once.  When the failure is the provider's, the
    query it rejected is the one recorded. *)
Theorem failed_call_adds_nothing
    (o : Operation) (st st' : BuilderState) (e : exn) :
  run provider o st = (Raise e, st') ->
  instructions st' = instructions st /\
  (descriptor_queries st' = descriptor_queries st \/
   exists q, descriptor_queries st' = descriptor_queries st ++ [q]) /\
  (forall q, e = DescriptorBuildError q ->
     provider q = None /\
     descriptor_queries st' = descriptor_queries st ++ [q]).
Proof.
  destruct o; unfold_ops; run_branches;
    rewrite <- ?app_assoc; cbn [app];
    intros H; inversion H; subst; clear H;
    (split; [reflexivity|]); cbn [descriptor_queries];
    (split; [first [left; reflexivity | right; eexists; reflexivity]|]);
    intros q Hq; inversion Hq; subst; split; first [assumption | reflexivity].
Qed.

(** X6. A call that succeeds has queried the provider exactly once and added
    exactly one custom call, to a kernel of the operation, with the
    status-returning API version and the provider's descriptor forwarded
    unchanged.  The last result buffer the call declares is the workspace
    [(lwork,)] the provider asked for; every handle given back to the caller
    reads one of the other result buffers. *)
Theorem successful_call_structure
    (o : Operation) (st st' : BuilderState) (handles : list XlaOp) :
  run provider o st = (Ok handles, st') ->
  exists q lwork opaque name operands outs operand_shapes rest wdt,
    let call := CustomCall name operands (_Shape.tuple_shape outs)
                  operand_shapes opaque API_VERSION_STATUS_RETURNING in
    descriptor_queries st' = descriptor_queries st ++ [q] /\
    provider q = Some (lwork, opaque) /\
    instructions st' = instructions st ++ call :: rest /\
    Forall (fun i => is_custom_call i = false) rest /\
    In name (kernels_of o) /\
    length operands = length operand_shapes /\
    last outs (_Shape.tuple_shape []) = _Shape.array_shape wdt [lwork] [0] /\
    Forall (fun h => exists i,
              kernel_output h = Some (call, i) /\
              (i + 1 < length outs)%nat) handles.
Proof.
  destruct o; unfold_ops; run_branches;
    rewrite <- ?app_assoc; cbn [app];
    intros H; inversion H; subst; clear H;
    eexists _, _, _, _, _, _, _, _, _; cbn zeta;
    (split; [reflexivity|]);
    (split; [eassumption|]);
    (split; [reflexivity|]);
    (split; [repeat constructor|]);
    (split; [cbn; tauto|]);
    (split; [reflexivity|]);
    (split; [reflexivity|]);
    repeat constructor; eexists; (split; [reflexivity | cbn; lia]).
Qed.

(** X7. A well-formed [trsm] call queries the provider with the batch size,
    [(m, n)] and the five flags as given, requests [hipblas_trsm_batched]
    on [(a, b)], and returns a single buffer with the shape and element type
    of [b]; the two int8 workspaces of [lwork] bytes stay with the call. *)
Theorem trsm_returns_solution_shaped_like_b
    (a b : XlaOp) (dt : np.dtype) (bd : list Z) (m n : Z)
    (lay lay_a : list Z) (left_side lower trans_a conj_a diag : bool)
    (lwork : Z) (opaque : string) (st : BuilderState) :
  get_shape b = Some (_Shape.array_shape dt (bd ++ [m; n]) lay) ->
  get_shape a
  = Some (_Shape.array_shape dt
            (bd ++ [if left_side then m else n;
                    if left_side then m else n]) lay_a) ->
  conj_a && negb trans_a = false ->
  provider (build_trsm_batched_descriptor dt (_prod bd) m n left_side lower
              trans_a conj_a diag) = Some (lwork, opaque) ->
  exists out x st',
    trsm provider a b left_side lower trans_a conj_a diag st = (Ok x, st') /\
    x = TupleElement out 0 /\
    descriptor_queries st'
    = descriptor_queries st
      ++ [build_trsm_batched_descriptor dt (_prod bd) m n left_side lower
            trans_a conj_a diag] /\
    instructions st' = instructions st ++ [out; x] /\
    kernel_name out = Some "hipblas_trsm_batched"%string /\
    get_shape x
    = Some (_Shape.array_shape dt (bd ++ [m; n])
              (canonical_matrix_layout (length bd))) /\
    get_shape (TupleElement out 1)
    = Some (_Shape.array_shape np.int8 [lwork] [0]) /\
    get_shape (TupleElement out 2)
    = Some (_Shape.array_shape np.int8 [lwork] [0]).
Proof.
  intros Hb Ha Hflags Hp.
  unfold trsm. resolve_shape Hb. rewrite Ha.
  cbn [ret _Shape.dimensions _Shape.element_type].
  replace (list_Z_eqb _ _) with true
    by (symmetry; apply list_Z_eqb_true; reflexivity).
  cbn [negb element_type _Shape.element_type ret].
  replace (np.dtype_eqb dt dt) with true
    by (symmetry; apply dtype_eqb_true; reflexivity).
  cbn [negb]. rewrite Hflags.
  unfold build_descriptor. rewrite Hp. run_call.
  eexists _, _, _. split; [reflexivity|]. split; [reflexivity|].
  split; [reflexivity|].
  split; [cbn [instructions]; now rewrite <- app_assoc|].
  split; [reflexivity|]. cbn [get_shape nth_error].
  rewrite <- (matrix_layout_canonical (length bd)).
  repeat split; reflexivity.
Qed.


(** X9. [getrf] returns the factored matrix, shaped like the operand, int32
    pivots of length [min(m, n)] and an int32 status per batch element.  Its
    workspace is a byte pool on the batched path and an array of the
    operand's element type on the general path.  The provider is only asked
    to answer the one query of the call. *)
Theorem getrf_output_shapes
    (a : XlaOp) (dt : np.dtype) (bd : list Z) (m n : Z) (lay : list Z)
    (lwork : Z) (opaque : string) (st : BuilderState) :
  get_shape a = Some (_Shape.array_shape dt (bd ++ [m; n]) lay) ->
  provider
    (if (1 <? _prod bd) && (m =? n) && (m / _prod bd <=? 128)
     then build_getrf_batched_descriptor dt (_prod bd) m
     else build_getrf_descriptor dt (_prod bd) m n)
  = Some (lwork, opaque) ->
  exists kernel outs ins st',
    let out := CustomCall kernel [a] (_Shape.tuple_shape outs) ins opaque
                 API_VERSION_STATUS_RETURNING in
    getrf provider a st
    = (Ok (TupleElement out 0, TupleElement out 1, TupleElement out 2), st')
    /\
    descriptor_queries st'
    = descriptor_queries st
      ++ [if (1 <? _prod bd) && (m =? n) && (m / _prod bd <=? 128)
          then build_getrf_batched_descriptor dt (_prod bd) m
          else build_getrf_descriptor dt (_prod bd) m n] /\
    instructions st'
    = instructions st
      ++ [out; TupleElement out 0; TupleElement out 1; TupleElement out 2] /\
    get_shape (TupleElement out 0)
    = Some (_Shape.array_shape dt (bd ++ [m; n])
              (canonical_matrix_layout (length bd))) /\
    get_shape (TupleElement out 1)
    = Some (_Shape.array_shape np.int32 (bd ++ [Z.min m n])
              (canonical_vector_layout (length bd))) /\
    get_shape (TupleElement out 2)
    = Some (_Shape.array_shape np.int32 bd (countdown (length bd))) /\
    get_shape (TupleElement out 3)
    = Some (_Shape.array_shape
              (if (1 <? _prod bd) && (m =? n) && (m / _prod bd <=? 128)
               then np.int8 else dt)
              [lwork] [0]).
Proof.
  intros Ha Hp.
  unfold getrf. resolve_shape Ha.
  destruct ((1 <? _prod bd) && (m =? n) && (m / _prod bd <=? 128));
    unfold bind, build_descriptor; rewrite Hp; run_call;
    eexists _, _, _, _; cbn zeta; (split; [reflexivity|]);
    (split; [reflexivity|]);
    (split; [rewrite <- !app_assoc; reflexivity|]);
    cbn [get_shape nth_error];
    rewrite <- (matrix_layout_canonical (length bd)),
      <- (vector_layout_canonical (length bd)), range_down_pred;
    repeat split; reflexivity.
Qed.

(** X10. For a batch of more than one square matrix, [getrf] takes the batched
    kernel exactly when the side length is below [129 * batch]: the limit on
    the side grows with the batch size.  The provider is only asked to
    answer the one query of the call. *)
Theorem getrf_batched_side_limit_scales_with_batch
    (a : XlaOp) (dt : np.dtype) (bd : list Z) (m : Z) (lay : list Z)
    (lwork : Z) (opaque : string) (st : BuilderState) :
  get_shape a = Some (_Shape.array_shape dt (bd ++ [m; m]) lay) ->
  _prod bd > 1 ->
  provider
    (if m / _prod bd <=? 128
     then build_getrf_batched_descriptor dt (_prod bd) m
     else build_getrf_descriptor dt (_prod bd) m m)
  = Some (lwork, opaque) ->
  exists lu pivots info st',
    getrf provider a st = (Ok (lu, pivots, info), st') /\
    descriptor_queries st'
    = descriptor_queries st
      ++ [if m / _prod bd <=? 128
          then build_getrf_batched_descriptor dt (_prod bd) m
          else build_getrf_descriptor dt (_prod bd) m m] /\
    (kernel_name lu = Some "hipblas_getrf_batched"%string
       <-> m < 129 * _prod bd) /\
    (kernel_name lu = Some "hipsolver_getrf"%string
       <-> 129 * _prod bd <= m).
Proof.
  intros Ha Hbatch Hp.
  assert (Hdiv : m / _prod bd <= 128 <-> m < 129 * _prod bd).
  { pose proof (Z.div_mod m (_prod bd)) as Hdm.
    pose proof (Z.mod_pos_bound m (_prod bd)) as Hmod.
    split; intros H; nia. }
  unfold getrf. resolve_shape Ha.
  replace (1 <? _prod bd) with true by (symmetry; apply Z.ltb_lt; lia).
  rewrite Z.eqb_refl. cbn [andb].
  destruct (m / _prod bd <=? 128) eqn:Hsel;
    unfold bind, build_descriptor; rewrite Hp; run_call;
    eexists _, _, _, _; (split; [reflexivity|]);
    (split; [reflexivity|]); cbn [kernel_name].
  - apply Z.leb_le in Hsel. apply Hdiv in Hsel. split.
    + split; [intros _; exact Hsel | reflexivity].
    + split; [discriminate | intros H; lia].
  - apply Z.leb_gt in Hsel.
    assert (Hge : 129 * _prod bd <= m)
      by (destruct (Z_lt_le_dec m (129 * _prod bd)) as [Hlt|Hle];
          [apply Hdiv in Hlt; lia | exact Hle]).
    split.
    + split; [discriminate | intros H; lia].
    + split; [intros _; exact Hge | reflexivity].
Qed.


(** X12. [orgqr] rejects, by assertion and before any descriptor is built, a
    [tau] whose dimensions but the last are not the batch prefix of [a]. *)
Theorem orgqr_batch_prefix_mismatch
    (a tau : XlaOp) (dt : np.dtype) (bd : list Z) (m n : Z) (lay : list Z)
    (tau_shape : Shape) (st : BuilderState) :
  get_shape a = Some (_Shape.array_shape dt (bd ++ [m; n]) lay) ->
  get_shape tau = Some tau_shape ->
  all_but_last (_Shape.dimensions tau_shape) <> bd ->
  orgqr provider a tau st = (Raise AssertionError, st).
Proof.
  intros Ha Htau Hdiff.
  unfold orgqr. resolve_shape Ha. rewrite Htau. cbn [ret].
  replace (list_Z_eqb _ _) with false
    by (symmetry; apply list_Z_eqb_false; exact Hdiff).
  reflexivity.
Qed.

(** X13. On an unbatched matrix and a [tau] without dimensions the prefix
    assertion of [orgqr] holds, and reading the last dimension of [tau]
    raises [IndexError], before any descriptor is built. *)
Theorem orgqr_tau_without_dimensions
    (a tau : XlaOp) (dt : np.dtype) (m n : Z) (lay : list Z)
    (tau_shape : Shape) (st : BuilderState) :
  get_shape a = Some (_Shape.array_shape dt [m; n] lay) ->
  get_shape tau = Some tau_shape ->
  _Shape.dimensions tau_shape = [] ->
  orgqr provider a tau st = (Raise IndexError, st).
Proof.
  intros Ha Htau Hdims.
  unfold orgqr, bind, c_get_shape. rewrite Ha. cbn.
  rewrite Htau. cbn. rewrite Hdims. reflexivity.
Qed.

(** X14. [orgqr] takes the number of reflectors [k] from the last dimension of
    [tau] and passes it to the provider with the batch size and [(m, n)].
    It checks neither [k] against [m] and [n] nor the element type of
    [tau]: the [tau] operand is declared with the element type of [a].  It
    returns the matrix, shaped like [a], and an int32 status per batch
    element. *)
Theorem orgqr_uses_last_dimension_of_tau
    (a tau : XlaOp) (dt : np.dtype) (bd : list Z) (m n k : Z)
    (lay : list Z) (tau_shape : Shape) (lwork : Z) (opaque : string)
    (st : BuilderState) :
  get_shape a = Some (_Shape.array_shape dt (bd ++ [m; n]) lay) ->
  get_shape tau = Some tau_shape ->
  _Shape.dimensions tau_shape = bd ++ [k] ->
  provider (build_orgqr_descriptor dt (_prod bd) m n k)
  = Some (lwork, opaque) ->
  exists outs st',
    let out :=
      CustomCall "hipsolver_orgqr" [a; tau] (_Shape.tuple_shape outs)
        [_Shape.array_shape dt (bd ++ [m; n])
           (canonical_matrix_layout (length bd));
         _Shape.array_shape dt (bd ++ [k])
           (canonical_vector_layout (length bd))]
        opaque API_VERSION_STATUS_RETURNING in
    orgqr provider a tau st
    = (Ok (TupleElement out 0, TupleElement out 1), st') /\
    descriptor_queries st'
    = descriptor_queries st ++ [build_orgqr_descriptor dt (_prod bd) m n k]
    /\
    get_shape (TupleElement out 0)
    = Some (_Shape.array_shape dt (bd ++ [m; n])
              (canonical_matrix_layout (length bd))) /\
    get_shape (TupleElement out 1)
    = Some (_Shape.array_shape np.int32 bd (countdown (length bd))).
Proof.
  intros Ha Htau Hdims Hp.
  unfold orgqr. resolve_shape Ha. rewrite Htau. cbn [ret].
  rewrite Hdims, all_but_last_app, list_Z_eqb_refl, last_item_app.
  cbn [assert ret]. unfold build_descriptor. rewrite Hp. run_call.
  rewrite <- (matrix_layout_canonical (length bd)),
    <- (vector_layout_canonical (length bd)), range_down_pred.
  eexists _, _. cbn zeta. split; [reflexivity|].
  repeat split; reflexivity.
Qed.




(** X18. QR factorisation composes with the reconstruction of Q: the matrix and
    the reflector scales [geqrf] returns pass the checks of [orgqr], which
    queries the provider with [k = min(m, n)] and returns a matrix shaped
    like the original operand.  The provider is only asked to answer the
    two queries made. *)
Theorem orgqr_accepts_geqrf_outputs
    (a : XlaOp) (dt : np.dtype) (bd : list Z) (m n : Z) (lay : list Z)
    (lwork1 lwork2 : Z) (opaque1 opaque2 : string) (st : BuilderState) :
  get_shape a = Some (_Shape.array_shape dt (bd ++ [m; n]) lay) ->
  provider (build_geqrf_descriptor dt (_prod bd) m n)
  = Some (lwork1, opaque1) ->
  provider (build_orgqr_descriptor dt (_prod bd) m n (Z.min m n))
  = Some (lwork2, opaque2) ->
  exists x taus info st1 y info' st2,
    geqrf provider a st = (Ok (x, taus, info), st1) /\
    orgqr provider x taus st1 = (Ok (y, info'), st2) /\
    descriptor_queries st2
    = descriptor_queries st
      ++ [build_geqrf_descriptor dt (_prod bd) m n;
          build_orgqr_descriptor dt (_prod bd) m n (Z.min m n)] /\
    kernel_name y = Some "hipsolver_orgqr"%string /\
    get_shape y
    = Some (_Shape.array_shape dt (bd ++ [m; n])
              (canonical_matrix_layout (length bd))).
Proof.
  intros Ha E1 E2.
  unfold geqrf. resolve_shape Ha. unfold build_descriptor. rewrite E1.
  run_call.
  eexists _, _, _, _. eexists _, _, _.
  split; [reflexivity|].
  unfold orgqr, bind, c_get_shape. cbn [get_shape nth_error].
  cbn [ret element_type _Shape.element_type _Shape.dimensions].
  rewrite ?length_app2, ?last_two_app, ?all_but_last_two_app.
  cbn [Nat.leb assert unpack2 ret].
  rewrite all_but_last_app, list_Z_eqb_refl, last_item_app.
  cbn [assert ret]. unfold build_descriptor. rewrite E2. run_call.
  split; [reflexivity|].
  split; [now rewrite <- app_assoc|].
  split; [reflexivity|].
  now rewrite <- (matrix_layout_canonical (length bd)).
Qed.

(** X19. Cholesky factorisation composes with the triangular solve: the factor
    [potrf] returns is accepted by [trsm] as the left-hand triangular
    matrix of a right-hand side with the same batch prefix and [n] rows,
    and the solution is shaped like the right-hand side.  The provider is
    only asked to answer the two queries made. *)
Theorem trsm_accepts_potrf_factor
    (a b : XlaOp) (dt : np.dtype) (bd : list Z) (n k : Z)
    (lay lay_b : list Z) (lower trans_a conj_a diag : bool)
    (lwork1 lwork2 : Z) (opaque1 opaque2 : string) (st : BuilderState) :
  get_shape a = Some (_Shape.array_shape dt (bd ++ [n; n]) lay) ->
  get_shape b = Some (_Shape.array_shape dt (bd ++ [n; k]) lay_b) ->
  conj_a && negb trans_a = false ->
  provider (build_potrf_descriptor dt lower (_prod bd) n)
  = Some (lwork1, opaque1) ->
  provider (build_trsm_batched_descriptor dt (_prod bd) n k true lower
              trans_a conj_a diag) = Some (lwork2, opaque2) ->
  exists l info st1 x st2,
    potrf provider a lower st = (Ok (l, info), st1) /\
    trsm provider l b true lower trans_a conj_a diag st1 = (Ok x, st2) /\
    descriptor_queries st2
    = descriptor_queries st
      ++ [build_potrf_descriptor dt lower (_prod bd) n;
          build_trsm_batched_descriptor dt (_prod bd) n k true lower trans_a
            conj_a diag] /\
    kernel_name x = Some "hipblas_trsm_batched"%string /\
    get_shape x
    = Some (_Shape.array_shape dt (bd ++ [n; k])
              (canonical_matrix_layout (length bd))).
Proof.
  intros Ha Hb Hflags E1 E2.
  unfold potrf. resolve_shape Ha. rewrite Z.eqb_refl. cbn [assert ret].
  unfold build_descriptor. rewrite E1. run_call.
  eexists _, _, _, _, _.
  split; [reflexivity|].
  unfold trsm. resolve_shape Hb. cbn [get_shape nth_error].
  cbn [ret _Shape.dimensions _Shape.element_type].
  rewrite list_Z_eqb_refl.
  cbn [negb element_type _Shape.element_type ret].
  replace (np.dtype_eqb dt dt) with true
    by (symmetry; apply dtype_eqb_true; reflexivity).
  cbn [negb]. rewrite Hflags. unfold build_descriptor. rewrite E2. run_call.
  split; [reflexivity|].
  split; [now rewrite <- app_assoc|].
  split; [reflexivity|].
  now rewrite <- (matrix_layout_canonical (length bd)).
Qed.

(** X20. When some batch dimension is zero the batch size is zero and [getrf]
    takes the general kernel, whatever the matrix dimensions: the side
    length is never divided by an empty batch. *)
Theorem getrf_empty_batch_uses_general_kernel
    (a : XlaOp) (dt : np.dtype) (bd : list Z) (m n : Z) (lay : list Z)
    (lwork : Z) (opaque : string) (st : BuilderState) :
  get_shape a = Some (_Shape.array_shape dt (bd ++ [m; n]) lay) ->
  In 0 bd ->
  provider (build_getrf_descriptor dt 0 m n) = Some (lwork, opaque) ->
  exists lu pivots info st',
    getrf provider a st = (Ok (lu, pivots, info), st') /\
    descriptor_queries st'
    = descriptor_queries st ++ [build_getrf_descriptor dt 0 m n] /\
    kernel_name lu = Some "hipsolver_getrf"%string.
Proof.
  intros Ha Hzero Hp. apply prod_zero_iff in Hzero.
  unfold getrf. resolve_shape Ha. rewrite Hzero.
  replace (1 <? 0) with false by reflexivity. cbn [andb].
  unfold bind, build_descriptor. rewrite Hp. run_call.
  eexists _, _, _, _. repeat split; reflexivity.
Qed.

End Coverage.

(** ** The further properties on concrete operands *)

Lemma declared_layouts_are_permutations_witness :
  In sample_potrf_request
    (added empty_state
       (snd (run sample_provider (call_potrf (f32 0 [10; 4; 4]) true)
               empty_state)))
  /\ In (_Shape.array_shape np.float32 [10; 4; 4] [1; 2; 0])
       (declared_buffers sample_potrf_request)
  /\ Permutation [1; 2; 0] (dimension_indices 3).
Proof.
  assert (Hin : In sample_potrf_request
                  (added empty_state
                     (snd (run sample_provider
                             (call_potrf (f32 0 [10; 4; 4]) true)
                             empty_state))))
    by (left; reflexivity).
  assert (Hs : In (_Shape.array_shape np.float32 [10; 4; 4] [1; 2; 0])
                 (declared_buffers sample_potrf_request))
    by (left; reflexivity).
  split; [exact Hin|]. split; [exact Hs|].
  exact (declared_layouts_are_permutations sample_provider
           (call_potrf (f32 0 [10; 4; 4]) true) empty_state
           sample_potrf_request
           (_Shape.array_shape np.float32 [10; 4; 4] [1; 2; 0]) Hin Hs).
Defined.

Lemma operand_of_rank_below_two_witness :
  (length [5] < 2)%nat
  /\ (exists msg,
        run sample_provider (call_potrf (f32 0 [5]) true) empty_state
        = (Raise (ValueError msg []), empty_state))
  /\ run sample_provider (call_getrf (f32 0 [5])) empty_state
     = (Raise AssertionError, empty_state).
Proof.
  assert (Hrank : (length [5] < 2)%nat) by (cbn; lia).
  split; [exact Hrank|]. split.
  - exact (operand_of_rank_below_two sample_provider
             (call_potrf (f32 0 [5]) true) np.float32 [5] [0] empty_state
             eq_refl Hrank).
  - exact (operand_of_rank_below_two sample_provider
             (call_getrf (f32 0 [5])) np.float32 [5] [0] empty_state
             eq_refl Hrank).
Defined.

Lemma failed_call_adds_nothing_witness :
  run failing_provider (call_potrf (f32 0 [2; 4; 4]) true) empty_state
  = (Raise (DescriptorBuildError (build_potrf_descriptor np.float32 true 2 4)),
     mkState [build_potrf_descriptor np.float32 true 2 4] [])
  /\ instructions (mkState [build_potrf_descriptor np.float32 true 2 4] [])
     = instructions empty_state
  /\ failing_provider (build_potrf_descriptor np.float32 true 2 4) = None.
Proof.
  assert (Hrun :
    run failing_provider (call_potrf (f32 0 [2; 4; 4]) true) empty_state
    = (Raise (DescriptorBuildError
                (build_potrf_descriptor np.float32 true 2 4)),
       mkState [build_potrf_descriptor np.float32 true 2 4] []))
    by reflexivity.
  split; [exact Hrun|].
  pose proof (failed_call_adds_nothing failing_provider _ _ _ _ Hrun)
    as (Hinstr & _ & Hquery).
  split; [exact Hinstr|].
  exact (proj1 (Hquery _ eq_refl)).
Defined.

Lemma successful_call_structure_witness :
  run sample_provider (call_potrf (f32 0 [10; 4; 4]) true) empty_state
  = (Ok [TupleElement sample_potrf_request 0;
         TupleElement sample_potrf_request 1],
     mkState [build_potrf_descriptor np.float32 true 10 4]
       [sample_potrf_request; TupleElement sample_potrf_request 0;
        TupleElement sample_potrf_request 1])
  /\ exists q lwork opaque name operands outs operand_shapes rest wdt,
       let call := CustomCall name operands (_Shape.tuple_shape outs)
                     operand_shapes opaque API_VERSION_STATUS_RETURNING in
       [build_potrf_descriptor np.float32 true 10 4] = [] ++ [q] /\
       sample_provider q = Some (lwork, opaque) /\
       [sample_potrf_request; TupleElement sample_potrf_request 0;
        TupleElement sample_potrf_request 1] = [] ++ call :: rest /\
       Forall (fun i => is_custom_call i = false) rest /\
       In name ["hipsolver_potrf"%string] /\
       length operands = length operand_shapes /\
       last outs (_Shape.tuple_shape [])
       = _Shape.array_shape wdt [lwork] [0] /\
       Forall (fun h => exists i,
                 kernel_output h = Some (call, i) /\
                 (i + 1 < length outs)%nat)
         [TupleElement sample_potrf_request 0;
          TupleElement sample_potrf_request 1].
Proof.
  assert (Hrun :
    run sample_provider (call_potrf (f32 0 [10; 4; 4]) true) empty_state
    = (Ok [TupleElement sample_potrf_request 0;
           TupleElement sample_potrf_request 1],
       mkState [build_potrf_descriptor np.float32 true 10 4]
         [sample_potrf_request; TupleElement sample_potrf_request 0;
          TupleElement sample_potrf_request 1]))
    by reflexivity.
  split; [exact Hrun|].
  exact (successful_call_structure sample_provider _ _ _ _ Hrun).
Defined.

Lemma trsm_returns_solution_shaped_like_b_witness :
  exists out x st',
    trsm sample_provider (f32 0 [2; 4; 4]) (f32 1 [2; 4; 5])
      true false false false false empty_state = (Ok x, st') /\
    x = TupleElement out 0 /\
    descriptor_queries st'
    = descriptor_queries empty_state
      ++ [build_trsm_batched_descriptor np.float32 (_prod [2]) 4 5 true false
            false false false] /\
    instructions st' = instructions empty_state ++ [out; x] /\
    kernel_name out = Some "hipblas_trsm_batched"%string /\
    get_shape x
    = Some (_Shape.array_shape np.float32 ([2] ++ [4; 5])
              (canonical_matrix_layout (length [2]))) /\
    get_shape (TupleElement out 1)
    = Some (_Shape.array_shape np.int8 [64] [0]) /\
    get_shape (TupleElement out 2)
    = Some (_Shape.array_shape np.int8 [64] [0]).
Proof.
  apply (trsm_returns_solution_shaped_like_b sample_provider
           (f32 0 [2; 4; 4]) (f32 1 [2; 4; 5]) np.float32 [2] 4 5
           [2; 1; 0] [2; 1; 0] true false false false false
           64 "descriptor" empty_state); reflexivity.
Defined.


Lemma getrf_output_shapes_witness :
  exists kernel outs ins st',
    let out := CustomCall kernel [f32 0 [2; 5; 3]] (_Shape.tuple_shape outs)
                 ins "descriptor" API_VERSION_STATUS_RETURNING in
    getrf sample_provider (f32 0 [2; 5; 3]) empty_state
    = (Ok (TupleElement out 0, TupleElement out 1, TupleElement out 2), st')
    /\
    descriptor_queries st'
    = descriptor_queries empty_state
      ++ [if (1 <? _prod [2]) && (5 =? 3) && (5 / _prod [2] <=? 128)
          then build_getrf_batched_descriptor np.float32 (_prod [2]) 5
          else build_getrf_descriptor np.float32 (_prod [2]) 5 3] /\
    instructions st'
    = instructions empty_state
      ++ [out; TupleElement out 0; TupleElement out 1; TupleElement out 2] /\
    get_shape (TupleElement out 0)
    = Some (_Shape.array_shape np.float32 ([2] ++ [5; 3])
              (canonical_matrix_layout (length [2]))) /\
    get_shape (TupleElement out 1)
    = Some (_Shape.array_shape np.int32 ([2] ++ [Z.min 5 3])
              (canonical_vector_layout (length [2]))) /\
    get_shape (TupleElement out 2)
    = Some (_Shape.array_shape np.int32 [2] (countdown (length [2]))) /\
    get_shape (TupleElement out 3)
    = Some (_Shape.array_shape
              (if (1 <? _prod [2]) && (5 =? 3) && (5 / _prod [2] <=? 128)
               then np.int8 else np.float32)
              [64] [0]).
Proof.
  apply (getrf_output_shapes sample_provider (f32 0 [2; 5; 3]) np.float32
           [2] 5 3 [2; 1; 0] 64 "descriptor" empty_state); reflexivity.
Defined.

Lemma getrf_batched_side_limit_scales_with_batch_witness :
  _prod [8] > 1 /\
  exists lu pivots info st',
    getrf sample_provider (f32 0 [8; 1000; 1000]) empty_state
    = (Ok (lu, pivots, info), st') /\
    descriptor_queries st'
    = descriptor_queries empty_state
      ++ [if 1000 / _prod [8] <=? 128
          then build_getrf_batched_descriptor np.float32 (_prod [8]) 1000
          else build_getrf_descriptor np.float32 (_prod [8]) 1000 1000] /\
    (kernel_name lu = Some "hipblas_getrf_batched"%string
       <-> 1000 < 129 * _prod [8]) /\
    (kernel_name lu = Some "hipsolver_getrf"%string
       <-> 129 * _prod [8] <= 1000).
Proof.
  assert (Hbatch : _prod [8] > 1) by (vm_compute; reflexivity).
  split; [exact Hbatch|].
  apply (getrf_batched_side_limit_scales_with_batch sample_provider
           (f32 0 [8; 1000; 1000]) np.float32 [8] 1000 [2; 1; 0]
           64 "descriptor" empty_state);
    [reflexivity | exact Hbatch | reflexivity].
Defined.


Lemma orgqr_batch_prefix_mismatch_witness :
  all_but_last [3; 4] <> [2] /\
  orgqr sample_provider (f32 0 [2; 5; 4]) (f32 1 [3; 4]) empty_state
  = (Raise AssertionError, empty_state).
Proof.
  assert (Hdiff : all_but_last [3; 4] <> [2]) by discriminate.
  split; [exact Hdiff|].
  apply (orgqr_batch_prefix_mismatch sample_provider
           (f32 0 [2; 5; 4]) (f32 1 [3; 4]) np.float32 [2] 5 4 [2; 1; 0]
           (_Shape.array_shape np.float32 [3; 4] [1; 0]) empty_state);
    [reflexivity | reflexivity | exact Hdiff].
Defined.

Lemma orgqr_tau_without_dimensions_witness :
  orgqr sample_provider (f32 0 [5; 4]) (f32 1 []) empty_state
  = (Raise IndexError, empty_state).
Proof.
  apply (orgqr_tau_without_dimensions sample_provider
           (f32 0 [5; 4]) (f32 1 []) np.float32 5 4 [1; 0]
           (_Shape.array_shape np.float32 [] []) empty_state); reflexivity.
Defined.

Lemma orgqr_uses_last_dimension_of_tau_witness :
  exists outs st',
    let out :=
      CustomCall "hipsolver_orgqr"
        [f32 0 [2; 5; 4]; operand_of 1 np.int32 [2; 9]]
        (_Shape.tuple_shape outs)
        [_Shape.array_shape np.float32 ([2] ++ [5; 4])
           (canonical_matrix_layout (length [2]));
         _Shape.array_shape np.float32 ([2] ++ [9])
           (canonical_vector_layout (length [2]))]
        "descriptor" API_VERSION_STATUS_RETURNING in
    orgqr sample_provider (f32 0 [2; 5; 4]) (operand_of 1 np.int32 [2; 9])
      empty_state
    = (Ok (TupleElement out 0, TupleElement out 1), st') /\
    descriptor_queries st'
    = descriptor_queries empty_state
      ++ [build_orgqr_descriptor np.float32 (_prod [2]) 5 4 9] /\
    get_shape (TupleElement out 0)
    = Some (_Shape.array_shape np.float32 ([2] ++ [5; 4])
              (canonical_matrix_layout (length [2]))) /\
    get_shape (TupleElement out 1)
    = Some (_Shape.array_shape np.int32 [2] (countdown (length [2]))).
Proof.
  apply (orgqr_uses_last_dimension_of_tau sample_provider
           (f32 0 [2; 5; 4]) (operand_of 1 np.int32 [2; 9]) np.float32
           [2] 5 4 9 [2; 1; 0]
           (_Shape.array_shape np.int32 [2; 9] [1; 0]) 64 "descriptor"
           empty_state); reflexivity.
Defined.




Lemma orgqr_accepts_geqrf_outputs_witness :
  exists x taus info st1 y info' st2,
    geqrf sample_provider (f32 0 [2; 5; 3]) empty_state
    = (Ok (x, taus, info), st1) /\
    orgqr sample_provider x taus st1 = (Ok (y, info'), st2) /\
    descriptor_queries st2
    = descriptor_queries empty_state
      ++ [build_geqrf_descriptor np.float32 (_prod [2]) 5 3;
          build_orgqr_descriptor np.float32 (_prod [2]) 5 3 (Z.min 5 3)] /\
    kernel_name y = Some "hipsolver_orgqr"%string /\
    get_shape y
    = Some (_Shape.array_shape np.float32 ([2] ++ [5; 3])
              (canonical_matrix_layout (length [2]))).
Proof.
  apply (orgqr_accepts_geqrf_outputs sample_provider (f32 0 [2; 5; 3])
           np.float32 [2] 5 3 [2; 1; 0] 64 64 "descriptor" "descriptor"
           empty_state); reflexivity.
Defined.

Lemma trsm_accepts_potrf_factor_witness :
  exists l info st1 x st2,
    potrf sample_provider (f32 0 [2; 4; 4]) true empty_state
    = (Ok (l, info), st1) /\
    trsm sample_provider l (f32 1 [2; 4; 7]) true true false false false st1
    = (Ok x, st2) /\
    descriptor_queries st2
    = descriptor_queries empty_state
      ++ [build_potrf_descriptor np.float32 true (_prod [2]) 4;
          build_trsm_batched_descriptor np.float32 (_prod [2]) 4 7 true true
            false false false] /\
    kernel_name x = Some "hipblas_trsm_batched"%string /\
    get_shape x
    = Some (_Shape.array_shape np.float32 ([2] ++ [4; 7])
              (canonical_matrix_layout (length [2]))).
Proof.
  apply (trsm_accepts_potrf_factor sample_provider
           (f32 0 [2; 4; 4]) (f32 1 [2; 4; 7]) np.float32 [2] 4 7
           [2; 1; 0] [2; 1; 0] true false false false
           64 64 "descriptor" "descriptor" empty_state); reflexivity.
Defined.

Lemma getrf_empty_batch_uses_general_kernel_witness :
  In 0 [3; 0] /\
  exists lu pivots info st',
    getrf sample_provider (f32 0 [3; 0; 4; 4]) empty_state
    = (Ok (lu, pivots, info), st') /\
    descriptor_queries st'
    = descriptor_queries empty_state
      ++ [build_getrf_descriptor np.float32 0 4 4] /\
    kernel_name lu = Some "hipsolver_getrf"%string.
Proof.
  assert (Hzero : In 0 [3; 0]) by (right; left; reflexivity).
  split; [exact Hzero|].
  apply (getrf_empty_batch_uses_general_kernel sample_provider
           (f32 0 [3; 0; 4; 4]) np.float32 [3; 0] 4 4 [3; 2; 1; 0]
           64 "descriptor" empty_state);
    [reflexivity | exact Hzero | reflexivity].
Defined.
